(** * typescript-induction: the domain module and the tutorial's functions

    A shallow embedding of [domain.ts] and of the functions that the
    tutorial [README.md] defines in its five sections.

    TypeScript types are erased before the program runs, so the embedding
    has two layers:

    - the run-time layer: JavaScript values ([value]), the few ECMAScript
      operations the snippets use (property read, [==] against a string,
      template-literal conversion, object spread, [Array.prototype.find],
      [reduce] and [concat]) and a state-and-exception monad [M] that holds
      the module binding [users], the console and a count of callback
      invocations;
    - the static layer: type expressions ([ty]) read as sets of run-time
      values ([has_type]), with the strict-null-checks switch as a
      parameter, and set inclusion as assignability ([subtype]); the
      tutorial itself says to read "extends" as "is subset of". *)

From Stdlib Require Import ZArith DecimalString.
From stdpp Require Import gmap strings list fin_maps.

Set Warnings "-register-all".
Local Open Scope string_scope.

(** ** Run-time values *)

(** The value universe: the primitives, plain objects whose own properties
    are data properties holding values of the universe (prototype
    [Object.prototype]), and instances of the built-in [Error] made by
    [new Error(message)].  Functions, symbols and arrays nested inside
    values are outside the universe; the arrays of the source ([users], the
    accumulators of [reduce]) are lists of values.  Numbers are the
    integers.  Objects are never mutated by the source, so they are
    compared by their contents. *)
Inductive value : Type :=
| VUndefined
| VNull
| VBool (b : bool)
| VNum (n : Z)
| VStr (s : string)
| VObj (props : gmap string value)
| VErr (message : string).

(** The only exception the snippets can raise is the [TypeError] of a
    property read on [null] or [undefined] and of a failed conversion to a
    primitive. *)
Inductive exn : Type := TypeError.

Inductive outcome (A : Type) : Type :=
| Ret (a : A)
| Throw (e : exn).
Arguments Ret {A} a.
Arguments Throw {A} e.

(** The two conversions between numbers and strings are left to the
    engine: [StringToNumber s] is the integer that the string denotes under
    the ECMAScript string-to-number conversion ([None] when it denotes
    [NaN] or a number that is not an integer), [NumberToString n] is the
    decimal rendering used by string conversion. *)
Class Engine : Type := {
  StringToNumber : string -> option Z;
  NumberToString : Z -> string
}.

(** An engine for running the definitions on examples.  It reads and
    prints plain decimal numerals; it is the ECMAScript conversion on the
    canonical numerals of small integers only (it does not read the empty
    string, blanks, exponents or other radices, and prints every digit of
    a large integer), and the examples stay within these. *)
Definition decimal_engine : Engine := {|
  StringToNumber s := Z.of_int <$> NilZero.int_of_string s;
  NumberToString n := NilZero.string_of_int (Z.to_int n)
|}.

Definition is_nullish (v : value) : bool :=
  match v with
  | VUndefined | VNull => true
  | _ => false
  end.

(** ECMAScript [ToBoolean]. *)
Definition ToBoolean (v : value) : bool :=
  match v with
  | VUndefined | VNull => false
  | VBool b => b
  | VNum n => negb (n =? 0)%Z
  | VStr s => negb (String.eqb s "")
  | VObj _ | VErr _ => true
  end.

(** The canonical decimal key of an array index. *)
Definition index_key (i : nat) : string :=
  NilEmpty.string_of_uint (Nat.to_uint i).

(** The own enumerable properties of a string: its characters under their
    indices.  Strings are sequences of 8-bit characters, so the indices
    are the engine's for ASCII strings. *)
Definition string_own_props (s : string) : gmap string value :=
  list_to_map
    (imap (fun i c => (index_key i, VStr (String c EmptyString)))
          (String.list_ascii_of_string s)).

(** The data properties found on a value, own or inherited.  Properties
    that hold functions (the built-in methods) are outside the universe;
    the source reads [name], [email] and [role] only, and of these the
    built-in prototypes define just [Error.prototype.name]. *)
Definition prop_lookup (k : string) (v : value) : option value :=
  match v with
  | VObj props => props !! k
  | VErr message =>
      if String.eqb k "message" then Some (VStr message)
      else if String.eqb k "name" then Some (VStr "Error")
      else None
  | VStr s =>
      if String.eqb k "length" then Some (VNum (Z.of_nat (String.length s)))
      else string_own_props s !! k
  | _ => None
  end.

(** [v.k]: a [TypeError] on [null] and [undefined], otherwise the property
    or [undefined]. *)
Definition get_prop (k : string) (v : value) : outcome value :=
  if is_nullish v then Throw TypeError
  else Ret (default VUndefined (prop_lookup k v)).

(** [k in v], for a key that no built-in prototype defines: a [TypeError]
    unless [v] is an object. *)
Definition in_op (k : string) (v : value) : outcome value :=
  match v with
  | VObj _ | VErr _ => Ret (VBool (bool_decide (is_Some (prop_lookup k v))))
  | _ => Throw TypeError
  end.

(** Conversion of an object to a primitive.  A plain object inherits
    [valueOf], which returns the object itself, and [toString], which
    returns ["[object Object]"]; an own data property called [toString]
    hides the inherited method and is not callable, and then no method
    yields a primitive.  [Error.prototype.toString] joins name and
    message. *)
Definition object_to_primitive (v : value) : outcome string :=
  match v with
  | VObj props =>
      if bool_decide (is_Some (props !! "toString")) then Throw TypeError
      else Ret "[object Object]"
  | VErr message =>
      Ret (if String.eqb message "" then "Error" else "Error: " ++ message)
  | _ => Throw TypeError
  end.

Section WithEngine.
Context `{Engine}.

(** ECMAScript [ToString], as applied by a template literal. *)
Definition to_string (v : value) : outcome string :=
  match v with
  | VUndefined => Ret "undefined"
  | VNull => Ret "null"
  | VBool b => Ret (if b then "true" else "false")
  | VNum n => Ret (NumberToString n)
  | VStr s => Ret s
  | VObj _ | VErr _ => object_to_primitive v
  end.

(** [v == s] for a string [s] (ECMAScript [IsLooselyEqual]). *)
Definition loose_eq_str (v : value) (s : string) : outcome bool :=
  match v with
  | VStr t => Ret (String.eqb t s)
  | VUndefined | VNull => Ret false
  | VNum n => Ret (bool_decide (StringToNumber s = Some n))
  | VBool b => Ret (bool_decide (StringToNumber s = Some (if b then 1 else 0)%Z))
  | VObj _ | VErr _ =>
      match object_to_primitive v with
      | Ret p => Ret (String.eqb p s)
      | Throw e => Throw e
      end
  end.
End WithEngine.

(** Object literals and spread.  Properties are set left to right, a later
    one replacing an earlier one of the same key. *)
Definition set_props (base : gmap string value) (l : list (string * value))
  : gmap string value :=
  fold_left (fun m kv => <[kv.1 := kv.2]> m) l base.

Definition object_literal (l : list (string * value)) : value :=
  VObj (set_props ∅ l).

(** [{...v}] copies the own enumerable properties of [v]; the own
    properties of an [Error] instance are not enumerable. *)
Definition spread_props (v : value) : gmap string value :=
  match v with
  | VObj props => props
  | VStr s => string_own_props s
  | _ => ∅
  end.

(** ** Program state and the monad of the snippets *)

Record state : Type := mkState {
  st_users : list value;      (* the array bound to [users] in domain.ts *)
  st_console : list string;   (* lines written by console.log, oldest first *)
  st_steps : nat              (* callback invocations made by find and reduce *)
}.

Definition M (A : Type) : Type := state -> outcome A * state.

Definition ret {A} (a : A) : M A := fun s => (Ret a, s).

Definition throw {A} (e : exn) : M A := fun s => (Throw e, s).

Definition bind {A B} (m : M A) (f : A -> M B) : M B :=
  fun s =>
    match m s with
    | (Ret a, s') => f a s'
    | (Throw e, s') => (Throw e, s')
    end.

Notation "x <- m ;; k" := (bind m (fun x => k))
  (at level 100, m at next level, right associativity).
Notation "m ;;; k" := (bind m (fun _ => k))
  (at level 100, right associativity).

Definition liftO {A} (o : outcome A) : M A := fun s => (o, s).

Definition console_log (line : string) : M unit :=
  fun s => (Ret tt, mkState (st_users s) (st_console s ++ [line]) (st_steps s)).

Definition tick : M unit :=
  fun s => (Ret tt, mkState (st_users s) (st_console s) (S (st_steps s))).

(** Reading the imported binding [users]. *)
Definition read_users : M (list value) := fun s => (Ret (st_users s), s).

(** [arr.find(p)]: the first element on which the callback answers true,
    or [undefined]. *)
Fixpoint array_find (p : value -> M bool) (arr : list value) : M value :=
  match arr with
  | [] => ret VUndefined
  | x :: rest =>
      tick ;;;
      b <- p x ;;
      if b then ret x else array_find p rest
  end.

(** [arr.reduce(f, init)]. *)
Fixpoint array_reduce {B} (f : B -> value -> M B) (init : B) (arr : list value)
  : M B :=
  match arr with
  | [] => ret init
  | x :: rest =>
      tick ;;;
      acc <- f init x ;;
      array_reduce f acc rest
  end.

(** [arr.concat(x)] for an [x] that is not an array: a new array. *)
Definition array_concat (arr : list value) (x : value) : list value :=
  arr ++ [x].

(** ** Static types *)

(** Type expressions of the fragment that domain.ts and the snippets use. *)
Inductive ty : Type :=
| TAny
| TString
| TNumber
| TBoolean
| TNull
| TUndefined
| TLit (s : string)                    (* a string literal type *)
| TErrorObj                            (* the built-in class Error *)
| TObj (fields : list (string * ty))   (* { k1: t1; ...; kn: tn } *)
| TArray (elem : ty)                   (* t[] *)
| TInter (a b : ty)                    (* a & b *)
| TUnion (a b : ty).                   (* a | b *)

(** [has_type strict t v]: the value [v] belongs to the type [t].  Without
    strict null checks, [null] and [undefined] belong to every type.  An
    object type asks for its properties and says nothing about others.  No
    value of the universe is an array. *)
Fixpoint has_type (strict : bool) (t : ty) (v : value) {struct t} : bool :=
  (negb strict && is_nullish v) ||
  match t with
  | TAny => true
  | TString => match v with VStr _ => true | _ => false end
  | TNumber => match v with VNum _ => true | _ => false end
  | TBoolean => match v with VBool _ => true | _ => false end
  | TNull => match v with VNull => true | _ => false end
  | TUndefined => match v with VUndefined => true | _ => false end
  | TLit s => match v with VStr x => String.eqb x s | _ => false end
  | TErrorObj => match v with VErr _ => true | _ => false end
  | TObj fields =>
      negb (is_nullish v) &&
      (fix has_fields (fs : list (string * ty)) : bool :=
         match fs with
         | [] => true
         | (k, tk) :: rest =>
             match prop_lookup k v with
             | Some fv => has_type strict tk fv
             | None => false
             end && has_fields rest
         end) fields
  | TArray _ => false
  | TInter a b => has_type strict a v && has_type strict b v
  | TUnion a b => has_type strict a v || has_type strict b v
  end.

(** A value of type [s] may be used where a [t] is expected. *)
Definition subtype (strict : bool) (s t : ty) : Prop :=
  forall v, has_type strict s v = true -> has_type strict t v = true.

(** Type annotations and casts are erased: at run time they are the
    identity. *)
Definition as_ {A} (x : A) (t : ty) : A := x.
Definition as_const {A} (x : A) : A := x.
Definition returning {A} (t : ty) (body : M A) : M A := body.

(** The object made of the properties [ks] of [v] that [v] has. *)
Definition pick (ks : list string) (v : value) : value :=
  VObj (list_to_map (omap (fun k => pair k <$> prop_lookup k v) ks)).

(** ** Function bodies as statement lists *)

(** The two statement forms of [isAdmin]: [if (cond) { return result; }]
    and [return result;], over the parameter [u]. *)
Inductive stmt : Type :=
| SIfReturn (cond result : value -> outcome value)
| SReturn (result : value -> outcome value).

Inductive completion : Type :=
| Returned (pos : nat) (v : value)   (* the statement that returned *)
| Threw (pos : nat) (e : exn)
| FellThrough.

(** [exec pos body u] runs the statements of [body], numbered from [pos];
    it yields the numbers of the statements evaluated, in order, and how
    the body completed. *)
Fixpoint exec (pos : nat) (body : list stmt) (u : value)
  : list nat * completion :=
  match body with
  | [] => ([], FellThrough)
  | SIfReturn cond result :: rest =>
      match cond u with
      | Throw e => ([pos], Threw pos e)
      | Ret c =>
          if ToBoolean c then
            match result u with
            | Ret v => ([pos], Returned pos v)
            | Throw e => ([pos], Threw pos e)
            end
          else
            let '(visited, c) := exec (S pos) rest u in (pos :: visited, c)
      end
  | SReturn result :: rest =>
      match result u with
      | Ret v => ([pos], Returned pos v)
      | Throw e => ([pos], Threw pos e)
      end
  end.

(** A call of a function with that body. *)
Definition call (body : list stmt) (u : value) : outcome value :=
  match (exec 1 body u).2 with
  | Returned _ v => Ret v
  | Threw _ e => Throw e
  | FellThrough => Ret VUndefined
  end.

(** ** domain.ts *)

Module domain.

Definition User : ty := TObj [("name", TString); ("email", TString)].

Definition Admin : ty := TInter User (TObj [("role", TString)]).

Definition users : list value :=
  [ object_literal [("name", VStr "A"); ("email", VStr "A@A")];
    object_literal [("name", VStr "B"); ("email", VStr "B@B")] ].

Definition Success (T : ty) : ty :=
  TObj [("_type", TLit "success"); ("value", T)].
Definition Error (E : ty) : ty :=
  TObj [("_type", TLit "error"); ("error", E)].
Definition Result (E T : ty) : ty := TUnion (Success T) (Error E).

End domain.

(** The state after the module has been loaded. *)
Definition initial_state : state := mkState domain.users [] 0.

(** ** README.md, #1 Strict Null Check *)

Module StrictNullCheck.
Section Snippet.
Context `{Engine}.

Definition warnUser (user : value) : M unit :=
  name <- liftO (get_prop "name" user) ;;
  email <- liftO (get_prop "email" user) ;;
  name_str <- liftO (to_string name) ;;
  email_str <- liftO (to_string email) ;;
  console_log ("Hi " ++ name_str ++ "! We're warning about something on "
               ++ email_str).

(** The snippet's own [users], which hides the imported one. *)
Definition users : list value :=
  [ object_literal [("name", VStr "A"); ("email", VStr "A@A")];
    object_literal [("name", VStr "B"); ("email", VStr "B@B")] ].

Definition found : M value :=
  array_find
    (fun u => n <- liftO (get_prop "name" u) ;; liftO (loose_eq_str n "A"))
    users.

(** [yes = true]: the default applies when the argument is [undefined]. *)
Definition getUser (yes : value) : M value :=
  let yes := match yes with VUndefined => VBool true | _ => yes end in
  ret (if ToBoolean yes
       then object_literal [("name", VStr "A"); ("email", VStr "A@A")]
       else VNull).

(** The statements of the snippet, in order. *)
Definition script : M unit :=
  warnUser (object_literal [("name", VStr "Luciano");
                            ("email", VStr "luciano.lima@farfetch.com")]) ;;;
  warnUser VNull ;;;
  found <- found ;;
  found_name <- liftO (get_prop "name" found) ;;
  found_str <- liftO (to_string found_name) ;;
  console_log ("Found user: " ++ found_str) ;;;
  a <- getUser VUndefined ;;
  a_name <- liftO (get_prop "name" a) ;;
  a_str <- liftO (to_string a_name) ;;
  console_log ("Got user: " ++ a_str).
End Snippet.
End StrictNullCheck.

(** ** README.md, #2 "as" Keyword Casting *)

Module Casting.
Section Snippet.
Context `{Engine}.

Definition getUser : M value :=
  ret (object_literal [("name", VStr "A"); ("email", VStr "A@A")]).

Definition a : M value := getUser.
Definition b : M value := v <- getUser ;; ret (as_ v domain.User).
Definition c : M value := returning domain.User getUser.

Definition findUser (users : list value) : M value :=
  array_find
    (fun u => n <- liftO (get_prop "name" u) ;; liftO (loose_eq_str n "A"))
    users.

Definition IdentifiedUser : ty :=
  TInter domain.User (TObj [("id", TNumber)]).

(** [{ ...current, id: 1 }] *)
Definition identified (current : value) : value :=
  VObj (set_props (spread_props current) [("id", VNum 1)]).

Definition n1 : M (list value) :=
  users <- read_users ;;
  array_reduce
    (fun _users current => ret (array_concat _users (identified current)))
    [] users.

Definition n2 : M (list value) :=
  users <- read_users ;;
  array_reduce
    (fun _users current => ret (array_concat _users (identified current)))
    (as_ [] (TArray IdentifiedUser)) users.

Definition n3 : M (list value) :=
  users <- read_users ;;
  array_reduce
    (fun _users current =>
       ret (array_concat (as_ _users (TArray IdentifiedUser))
                         (identified current)))
    [] users.
End Snippet.
End Casting.

(** ** README.md, #4 Return Types *)

Module ReturnTypes.
Section Snippet.
Context `{Engine}.

Definition findUser (name : string) : M value :=
  users <- read_users ;;
  user <- array_find
            (fun u => n <- liftO (get_prop "name" u) ;;
                      liftO (loose_eq_str n name))
            users ;;
  ret (if ToBoolean user
       then object_literal [("value", user); ("_type", VStr "success")]
       else object_literal [("error", VErr "Not found.");
                            ("_type", VStr "error")]).

Definition strictFindUser (name : string) : M value :=
  returning (domain.Result TErrorObj domain.User)
    (users <- read_users ;;
     user <- array_find
               (fun u => n <- liftO (get_prop "name" u) ;;
                         liftO (loose_eq_str n name))
               users ;;
     ret (if ToBoolean user
          then object_literal [("value", user); ("_type", VStr "success")]
          else object_literal [("error", VErr "Not found.");
                               ("_type", VStr "error")])).

Definition constFindUser (name : string) : M value :=
  users <- read_users ;;
  user <- array_find
            (fun u => n <- liftO (get_prop "name" u) ;;
                      liftO (loose_eq_str n name))
            users ;;
  ret (if ToBoolean user
       then as_const
              (object_literal [("value", user); ("_type", VStr "success")])
       else as_const
              (object_literal [("error", VErr "Not found.");
                               ("_type", VStr "error")])).

Definition overwriteFindUser (name : string) : M value :=
  returning (domain.Result TErrorObj domain.User)
    (users <- read_users ;;
     user <- array_find
               (fun u => n <- liftO (get_prop "name" u) ;;
                         liftO (loose_eq_str n name))
               users ;;
     ret (if ToBoolean user
          then as_const
                 (object_literal [("value", user); ("_type", VStr "success")])
          else as_const
                 (object_literal [("error", VErr "Not found.");
                                  ("_type", VStr "error")]))).

Definition getNewUser : M value :=
  returning domain.User
    (let u := object_literal [("name", VStr "B"); ("email", VStr "B@B");
                              ("password", VStr "YOU SHOULD NOT SEE IT!!!")] in
     ret u).
End Snippet.
End ReturnTypes.

(** ** README.md, #5 Type Guards *)

Module TypeGuards.

Definition admin : value :=
  object_literal [("name", VStr "A"); ("email", VStr "A@A");
                  ("role", VStr "Administrator")].

(** [let u: User = admin;] *)
Definition u : value := admin.

Definition isAdmin_body : list stmt :=
  [ SIfReturn (fun u => get_prop "role" (as_ u TAny))
              (fun _ => Ret (VBool true));
    SIfReturn (fun u => get_prop "role" (as_ u domain.Admin))
              (fun _ => Ret (VBool true));
    SReturn (fun _ => Ret (VBool false));
    SReturn (fun u => in_op "role" u) ].

Definition isAdmin (u : value) : M value := liftO (call isAdmin_body u).

End TypeGuards.

(** ** The result that the lookups of #4 are described to give *)

(** [u] has a [name] property that is the string [name]. *)
Definition name_is (name : string) (u : value) : bool :=
  match prop_lookup "name" u with
  | Some (VStr n) => String.eqb n name
  | _ => false
  end.

(** A success record around the first user called [name], or an error
    record around [Error("Not found.")]. *)
Definition lookup_result (name : string) (users : list value) : value :=
  match List.find (name_is name) users with
  | Some user => VObj {[ "_type" := VStr "success"; "value" := user ]}
  | None => VObj {[ "_type" := VStr "error"; "error" := VErr "Not found." ]}
  end.

(** A value that carries [_type], [value] and [error] at once. *)
Definition success_with_error : value :=
  object_literal
    [("_type", VStr "success");
     ("value", object_literal [("name", VStr "A"); ("email", VStr "A@A")]);
     ("error", VErr "Not found.")].

(** [framed n m]: running [m] leaves the array bound to [users] as it is
    and makes at most [n] callback invocations. *)
Definition framed {A} (n : nat) (m : M A) : Prop :=
  forall s,
    st_users (m s).2 = st_users s /\
    st_steps (m s).2 <= st_steps s + n.

(** [finishes_within n m s]: from the state [s] the computation [m] comes
    to an outcome after at most [n] callback invocations. *)
Definition finishes_within {A} (n : nat) (m : M A) (s : state) : Prop :=
  exists o s', m s = (o, s') /\ st_steps s' <= st_steps s + n.

(** ** README.md, #4 Return Types: the statements that use the lookups *)

(** [v === s] for a string [s]. *)
Definition strict_eq_str (v : value) (s : string) : bool :=
  match v with
  | VStr t => String.eqb t s
  | _ => false
  end.

(** The clause that a [switch] over string labels runs: the first [case]
    whose label is strictly equal to the discriminant, or [default]. *)
Inductive clause : Type :=
| Case (label : string)
| Default.

Definition switch_on (discriminant : value) (labels : list string) : clause :=
  match List.find (strict_eq_str discriminant) labels with
  | Some label => Case label
  | None => Default
  end.

Definition obind {A B} (o : outcome A) (f : A -> outcome B) : outcome B :=
  match o with
  | Ret a => f a
  | Throw e => Throw e
  end.

Module ReturnTypesUse.
Section Snippet.
Context `{Engine}.

(** [switch (a._type) { case "": break; default: break; }] *)
Definition switch_a (a : value) : outcome clause :=
  obind (get_prop "_type" a) (fun tag => Ret (switch_on tag [""])).

(** [switch (b._type) { case "success": b.value; break;
                        case "error": b.error; break; default: b; }] *)
Definition switch_b (b : value) : outcome clause :=
  obind (get_prop "_type" b) (fun tag =>
    match switch_on tag ["success"; "error"] with
    | Case label =>
        if String.eqb label "success"
        then obind (get_prop "value" b) (fun _ => Ret (Case label))
        else obind (get_prop "error" b) (fun _ => Ret (Case label))
    | Default => Ret Default
    end).

(** [switch (c._type) { case "success": break;
                        case "error": c.error; break; default: break; }] *)
Definition switch_c (c : value) : outcome clause :=
  obind (get_prop "_type" c) (fun tag =>
    match switch_on tag ["success"; "error"] with
    | Case label =>
        if String.eqb label "success"
        then Ret (Case label)
        else obind (get_prop "error" c) (fun _ => Ret (Case label))
    | Default => Ret Default
    end).

(** The [switch] over [d._type]; its ["error"] clause reads [c.error]. *)
Definition switch_d (c d : value) : outcome clause :=
  obind (get_prop "_type" d) (fun tag =>
    match switch_on tag ["success"; "error"] with
    | Case label =>
        if String.eqb label "success"
        then Ret (Case label)
        else obind (get_prop "error" c) (fun _ => Ret (Case label))
    | Default => Ret Default
    end).

(** The statements of the snippet after the function declarations; the
    result is the last binding, [u]. *)
Definition script : M value :=
  a <- ReturnTypes.findUser "A" ;;
  liftO (switch_a a) ;;;
  b <- ReturnTypes.strictFindUser "A" ;;
  liftO (switch_b b) ;;;
  c <- ReturnTypes.constFindUser "A" ;;
  liftO (switch_c c) ;;;
  d <- ReturnTypes.overwriteFindUser "A" ;;
  liftO (switch_d c d) ;;;
  ReturnTypes.getNewUser.
End Snippet.
End ReturnTypesUse.

(** [quiet m]: running [m] writes nothing to the console. *)
Definition quiet {A} (m : M A) : Prop :=
  forall s, st_console (m s).2 = st_console s.

(** ** Properties of the static layer *)

Lemma has_type_obj strict fields v :
  has_type strict (TObj fields) v =
  (negb strict && is_nullish v) ||
  (negb (is_nullish v) &&
   forallb (fun kt => match prop_lookup kt.1 v with
                      | Some fv => has_type strict kt.2 fv
                      | None => false
                      end) fields).
Proof.
  simpl. do 2 f_equal.
  induction fields as [|[k tk] rest IH]; simpl; [done|]. by rewrite IH.
Qed.

Lemma index_key_not_alpha (i : nat) (c : Ascii.ascii) (rest : string) :
  (Ascii.nat_of_ascii c >= 65)%nat -> index_key i <> String c rest.
Proof.
  unfold index_key. intros Hc Heq.
  destruct (Nat.to_uint i); simpl in Heq; try discriminate;
    injection Heq as <- _; vm_compute in Hc; lia.
Qed.

Lemma string_own_props_alpha (s : string) (c : Ascii.ascii) (rest : string) :
  (Ascii.nat_of_ascii c >= 65)%nat -> string_own_props s !! String c rest = None.
Proof.
  intros Hc. unfold string_own_props. apply not_elem_of_list_to_map_1.
  rewrite list_elem_of_fmap. intros [[k v] [Hk Hin]]. simpl in Hk. subst k.
  apply elem_of_lookup_imap_1 in Hin as (i & a & Heq & _).
  injection Heq as Heq _. symmetry in Heq. by apply index_key_not_alpha in Heq.
Qed.

(** Under strict null checks a [User] is an object with string properties
    [name] and [email]. *)
Lemma User_strict_inv v :
  has_type true domain.User v = true ->
  exists props n e,
    v = VObj props /\ props !! "name" = Some (VStr n) /\
    props !! "email" = Some (VStr e).
Proof.
  unfold domain.User. rewrite has_type_obj. simpl.
  destruct v as [| | | |s|props|m]; simpl; try discriminate.
  - rewrite string_own_props_alpha; [discriminate | vm_compute; lia].
  - intros Hv. destruct (props !! "name") as [[]|] eqn:Hn; try discriminate.
    destruct (props !! "email") as [[]|] eqn:He; try discriminate.
    eauto 6.
Qed.

(** ** #5 Type Guards: [isAdmin] *)

(** C1, as stated, fails: not every input makes [isAdmin] return.  On
    [null], which the parameter type [User] admits without strict null
    checks, the read of [role] in the first statement throws. *)
Lemma isAdmin_null_does_not_return :
  TypeGuards.isAdmin VNull initial_state = (Throw TypeError, initial_state) /\
  ~ (forall u, exists pos v,
       (exec 1 TypeGuards.isAdmin_body u).2 = Returned pos v /\
       1 <= pos <= 3).
Proof.
  split; [reflexivity|].
  intros Hall. destruct (Hall VNull) as (pos & v & Hrun & _). discriminate.
Qed.

(** C1, amended.  In [isAdmin] the last statement, [return "role" in u],
    is never evaluated, whatever the argument.  On every argument other
    than [null] and [undefined] the function returns a boolean from one of
    its first three statements; on [null] and [undefined] the first
    statement raises a [TypeError]. *)
Theorem isAdmin_structural_check_unreachable (u : value) :
  (4 ∉ (exec 1 TypeGuards.isAdmin_body u).1) /\
  (is_nullish u = false ->
   exists pos b,
     (exec 1 TypeGuards.isAdmin_body u).2 = Returned pos (VBool b) /\
     1 <= pos <= 3 /\
     forall s, TypeGuards.isAdmin u s = (Ret (VBool b), s)) /\
  (is_nullish u = true ->
   exec 1 TypeGuards.isAdmin_body u = ([1], Threw 1 TypeError)).
Proof.
  unfold TypeGuards.isAdmin, liftO, call, TypeGuards.isAdmin_body, as_.
  simpl. unfold get_prop.
  destruct (is_nullish u); simpl.
  - split; [by intros Hin%list_elem_of_In; simpl in Hin; lia|].
    split; [discriminate | reflexivity].
  - destruct (ToBoolean (default VUndefined (prop_lookup "role" u))); simpl.
    + split; [by intros Hin%list_elem_of_In; simpl in Hin; lia|].
      split; [|discriminate].
      intros _. exists 1, true. split; [reflexivity|]. split; [lia | reflexivity].
    + split; [by intros Hin%list_elem_of_In; simpl in Hin; lia|].
      split; [|discriminate].
      intros _. exists 3, false. split; [reflexivity|]. split; [lia | reflexivity].
Qed.

Lemma isAdmin_structural_check_unreachable_witness :
  exists pos b,
    (exec 1 TypeGuards.isAdmin_body TypeGuards.admin).2 = Returned pos (VBool b) /\
    1 <= pos <= 3 /\
    forall s, TypeGuards.isAdmin TypeGuards.admin s = (Ret (VBool b), s).
Proof.
  apply (proj1 (proj2 (isAdmin_structural_check_unreachable TypeGuards.admin))).
  reflexivity.
Defined.

(** ** domain.ts: the types *)

(** C2, as stated, fails: a value of type [Result<Error, User>] may carry
    both a [value] and an [error] property, because an object type does not
    exclude further properties. *)
Lemma Result_value_with_both_fields :
  ~ (forall v,
       has_type true (domain.Result TErrorObj domain.User) v = true ->
       ~ (is_Some (prop_lookup "value" v) /\ is_Some (prop_lookup "error" v))).
Proof.
  intros Hno. apply (Hno success_with_error); [reflexivity|].
  split; eexists; reflexivity.
Qed.

(** C2, amended.  Under strict null checks every value of type
    [Result<E, T>] belongs to exactly one of [Success<T>] and [Error<E>],
    and its [_type] tag alone decides which: a value tagged ["success"] has
    a [value] property of type [T], a value tagged ["error"] has an [error]
    property of type [E]. *)
Theorem Result_one_variant_by_tag (E T : ty) (v : value) :
  has_type true (domain.Result E T) v = true ->
  has_type true (domain.Success T) v = negb (has_type true (domain.Error E) v) /\
  (has_type true (domain.Success T) v = true <->
   prop_lookup "_type" v = Some (VStr "success")) /\
  (has_type true (domain.Error E) v = true <->
   prop_lookup "_type" v = Some (VStr "error")) /\
  (has_type true (domain.Success T) v = true ->
   exists x, prop_lookup "value" v = Some x /\ has_type true T x = true) /\
  (has_type true (domain.Error E) v = true ->
   exists e, prop_lookup "error" v = Some e /\ has_type true E e = true).
Proof.
  unfold domain.Result, domain.Success, domain.Error.
  change (has_type true (TUnion ?a ?b) v)
    with (has_type true a v || has_type true b v).
  rewrite !has_type_obj. simpl.
  destruct (is_nullish v); simpl; [discriminate|].
  destruct (prop_lookup "_type" v) as [tag|]; simpl; [|discriminate].
  destruct tag as [| | | |tag| |]; simpl; try discriminate.
  destruct (String.eqb_spec tag "success") as [->|Hs]; simpl.
  - destruct (prop_lookup "value" v) as [x|]; simpl; [|discriminate].
    rewrite andb_true_r, orb_false_r. intros HT. rewrite HT.
    repeat split; intros; try done; eauto.
  - destruct (String.eqb_spec tag "error") as [->|He]; simpl; [|discriminate].
    destruct (prop_lookup "error" v) as [e|]; simpl; [|discriminate].
    rewrite andb_true_r. intros HE. rewrite HE.
    repeat split; intros; try done; try congruence; eauto.
Qed.

Lemma Result_one_variant_by_tag_witness :
  has_type true (domain.Success domain.User) success_with_error =
  negb (has_type true (domain.Error TErrorObj) success_with_error).
Proof.
  apply (proj1 (Result_one_variant_by_tag TErrorObj domain.User
                  success_with_error eq_refl)).
Defined.

(** C3.  [users] is a sequence of exactly two objects: the first has the
    properties [name = "A"] and [email = "A@A"] and no other, the second
    [name = "B"] and [email = "B@B"] and no other. *)
Theorem users_two_literal_entries :
  length domain.users = 2 /\
  domain.users !! 0 = Some (VObj {[ "name" := VStr "A"; "email" := VStr "A@A" ]}) /\
  domain.users !! 1 = Some (VObj {[ "name" := VStr "B"; "email" := VStr "B@B" ]}) /\
  Forall (fun u => has_type true domain.User u = true) domain.users.
Proof.
  split; [reflexivity|]. split; [reflexivity|]. split; [reflexivity|].
  repeat constructor.
Qed.

(** ** #4 Return Types: [getNewUser] *)

(** C4.  Types are erased: a cast and a return-type annotation leave the
    value as it is, and nothing checks a shape at run time (the first user,
    cast to [Admin], is still not an [Admin]).  In particular [getNewUser],
    declared to return a [User], returns the object with [name = "B"],
    [email = "B@B"] and the property [password] as well. *)
Theorem getNewUser_keeps_password (s : state) :
  (forall (t : ty) (v : value), as_ v t = v) /\
  (forall (t : ty) (body : M value), returning t body = body) /\
  (exists first, domain.users !! 0 = Some first /\
                 has_type true domain.Admin (as_ first domain.Admin) = false) /\
  exists u,
    ReturnTypes.getNewUser s = (Ret u, s) /\
    u = VObj {[ "name" := VStr "B"; "email" := VStr "B@B";
                "password" := VStr "YOU SHOULD NOT SEE IT!!!" ]} /\
    prop_lookup "name" u = Some (VStr "B") /\
    prop_lookup "email" u = Some (VStr "B@B") /\
    prop_lookup "password" u = Some (VStr "YOU SHOULD NOT SEE IT!!!") /\
    has_type true domain.User u = true.
Proof.
  split; [reflexivity|]. split; [reflexivity|]. split.
  - eexists. split; reflexivity.
  - eexists. split; [reflexivity|]. repeat split.
Qed.

(** ** #1 Strict Null Check: [warnUser] *)

(** C5.  The argument [null] is in the parameter type [User] without strict
    null checks and is not in it with them, so the call [warnUser(null)] is
    accepted in the first case only.  At run time [warnUser(null)] raises a
    [TypeError] at the destructuring and writes nothing, while on every
    [User] in the strict sense the function writes its line and returns. *)
Theorem warnUser_null_rejected_when_strict `{Engine} :
  subtype false TNull domain.User /\
  ~ subtype true TNull domain.User /\
  (forall s, StrictNullCheck.warnUser VNull s = (Throw TypeError, s)) /\
  (forall user s,
     has_type true domain.User user = true ->
     exists name email,
       prop_lookup "name" user = Some (VStr name) /\
       prop_lookup "email" user = Some (VStr email) /\
       StrictNullCheck.warnUser user s =
       (Ret tt,
        mkState (st_users s)
                (st_console s ++
                 ["Hi " ++ name ++ "! We're warning about something on " ++ email])
                (st_steps s))).
Proof.
  split; [|split; [|split]].
  - intros v. unfold domain.User. rewrite has_type_obj. by destruct v.
  - intros Hsub. specialize (Hsub VNull eq_refl). discriminate.
  - reflexivity.
  - intros user s (props & name & email & -> & Hn & He)%User_strict_inv.
    exists name, email. simpl. split; [done|]. split; [done|].
    unfold StrictNullCheck.warnUser, bind, liftO, get_prop. simpl.
    by rewrite Hn, He.
Qed.

Lemma warnUser_null_rejected_when_strict_witness :
  exists name email,
    prop_lookup "name" TypeGuards.admin = Some (VStr name) /\
    prop_lookup "email" TypeGuards.admin = Some (VStr email) /\
    @StrictNullCheck.warnUser decimal_engine TypeGuards.admin initial_state =
    (Ret tt,
     mkState domain.users
             ["Hi " ++ name ++ "! We're warning about something on " ++ email] 0).
Proof.
  apply (proj2 (proj2 (proj2
           (@warnUser_null_rejected_when_strict decimal_engine)))
           TypeGuards.admin initial_state).
  reflexivity.
Defined.

(** ** domain.ts: [Admin] extends [User] *)

(** C6.  Every [Admin] is a [User]: the type [Admin] is included in the
    type [User], with or without strict null checks, so whatever expects a
    [User] accepts an [Admin]; and the object made of the [name] and
    [email] properties of an [Admin] is a [User] ([null] and [undefined],
    which the mode without strict null checks lets into every type, set
    aside). *)
Theorem Admin_satisfies_User (strict : bool) :
  subtype strict domain.Admin domain.User /\
  (forall a,
     has_type strict domain.Admin a = true ->
     strict = true \/ is_nullish a = false ->
     has_type strict domain.User (pick ["name"; "email"] a) = true).
Proof.
  split.
  - intros a. unfold domain.Admin.
    change (has_type strict (TInter ?x ?y) a)
      with ((negb strict && is_nullish a) ||
            (has_type strict x a && has_type strict y a)).
    intros [Hn | [Hu _]%andb_prop]%orb_prop; [|done].
    unfold domain.User. rewrite has_type_obj, Hn. done.
  - intros a Ha Hmode.
    assert (Hnn : is_nullish a = false).
    { destruct Hmode as [->|]; [|done]. by destruct a. }
    clear Hmode. unfold domain.Admin in Ha.
    change (has_type strict (TInter ?x ?y) a)
      with ((negb strict && is_nullish a) ||
            (has_type strict x a && has_type strict y a)) in Ha.
    rewrite Hnn, andb_false_r in Ha. simpl in Ha.
    apply andb_prop in Ha as [Hu _]. revert Hu.
    unfold domain.User, pick. rewrite !has_type_obj, Hnn, andb_false_r.
    simpl.
    destruct (prop_lookup "name" a) as [n|]; simpl; [|discriminate].
    destruct (prop_lookup "email" a) as [e|]; simpl; [|by rewrite andb_false_r].
    rewrite lookup_insert_eq, lookup_insert_ne, lookup_insert_eq by done.
    by rewrite andb_false_r.
Qed.

Lemma Admin_satisfies_User_witness :
  has_type true domain.User (pick ["name"; "email"] TypeGuards.admin) = true.
Proof.
  apply (proj2 (Admin_satisfies_User true) TypeGuards.admin);
    [reflexivity | left; reflexivity].
Defined.

(** ** The frame of a computation *)

Lemma framed_ret {A} (a : A) : framed 0 (ret a).
Proof. intros s. simpl. split; [done | lia]. Qed.

Lemma framed_liftO {A} (o : outcome A) : framed 0 (liftO o).
Proof. intros s. simpl. split; [done | lia]. Qed.

Lemma framed_console_log line : framed 0 (console_log line).
Proof. intros s. simpl. split; [done | lia]. Qed.

Lemma framed_tick : framed 1 tick.
Proof. intros s. simpl. split; [done | lia]. Qed.

Lemma framed_read_users : framed 0 read_users.
Proof. intros s. simpl. split; [done | lia]. Qed.

Lemma framed_bind {A B} n k (m : M A) (f : A -> M B) :
  framed n m -> (forall a, framed k (f a)) -> framed (n + k) (bind m f).
Proof.
  intros Hm Hf s. unfold bind. specialize (Hm s).
  destruct (m s) as [[a|e] s']; simpl in *.
  - specialize (Hf a s'). destruct Hf as [-> ?]. split; [tauto | lia].
  - split; [tauto | lia].
Qed.

Lemma framed_weaken {A} n n' (m : M A) : n <= n' -> framed n m -> framed n' m.
Proof. intros Hle Hm s. specialize (Hm s). split; [tauto | lia]. Qed.

Lemma framed_returning {A} t n (m : M A) : framed n m -> framed n (returning t m).
Proof. done. Qed.

Lemma framed_array_find p arr :
  (forall x, framed 0 (p x)) -> framed (length arr) (array_find p arr).
Proof.
  intros Hp. induction arr as [|x rest IH]; simpl.
  - apply framed_ret.
  - change (S (length rest)) with (1 + (0 + length rest)).
    apply framed_bind; [apply framed_tick|]. intros _.
    apply framed_bind; [apply Hp|]. intros [|]; [|exact IH].
    eapply framed_weaken; [|apply framed_ret]. lia.
Qed.

Lemma framed_array_reduce {B} (f : B -> value -> M B) init arr :
  (forall acc x, framed 0 (f acc x)) ->
  framed (length arr) (array_reduce f init arr).
Proof.
  intros Hf. revert init. induction arr as [|x rest IH]; intros init; simpl.
  - apply framed_ret.
  - change (S (length rest)) with (1 + (0 + length rest)).
    apply framed_bind; [apply framed_tick|]. intros _.
    apply framed_bind; [apply Hf|]. intros acc. apply IH.
Qed.

Lemma framed_finishes {A} n (m : M A) s : framed n m -> finishes_within n m s.
Proof.
  intros Hm. specialize (Hm s). destruct (m s) as [o s'] eqn:Heq.
  exists o, s'. simpl in Hm. split; [done | tauto].
Qed.

Create HintDb frame discriminated.
#[local] Hint Resolve framed_ret framed_liftO framed_console_log framed_tick
  framed_read_users framed_returning : frame.

(** Proves [framed 0 m] for a straight-line [m]. *)
Ltac straight_line :=
  repeat first
    [ apply (framed_bind 0 0); [|intros ?]
    | apply framed_returning
    | solve [auto with frame] ].

Section Frames.
Context `{Engine}.

Lemma framed_name_callback name (u : value) :
  framed 0 (n <- liftO (get_prop "name" u) ;; liftO (loose_eq_str n name)).
Proof. straight_line. Qed.

Lemma framed_warnUser user : framed 0 (StrictNullCheck.warnUser user).
Proof. unfold StrictNullCheck.warnUser. straight_line. Qed.

Lemma framed_getUser yes : framed 0 (StrictNullCheck.getUser yes).
Proof. apply framed_ret. Qed.

Lemma framed_found : framed 2 StrictNullCheck.found.
Proof. apply (framed_array_find _ StrictNullCheck.users), framed_name_callback. Qed.

Lemma framed_script : framed 2 StrictNullCheck.script.
Proof.
  unfold StrictNullCheck.script.
  apply (framed_bind 0 2); [apply framed_warnUser | intros _].
  apply (framed_bind 0 2); [apply framed_warnUser | intros _].
  apply (framed_bind 2 0); [apply framed_found | intros ?].
  straight_line.
Qed.

Lemma framed_Casting_findUser users :
  framed (length users) (Casting.findUser users).
Proof. apply framed_array_find, framed_name_callback. Qed.

(** What runs after [users] has been read is framed by the length of the
    array that was read. *)
Lemma framed_after_read {A} (k : list value -> M A) s :
  (forall users, framed (length users) (k users)) ->
  st_users ((users <- read_users ;; k users) s).2 = st_users s /\
  st_steps ((users <- read_users ;; k users) s).2
    <= st_steps s + length (st_users s).
Proof. intros Hk. unfold bind, read_users. apply Hk. Qed.

Lemma framed_reduce_identified users :
  framed (length users)
    (array_reduce
       (fun _users current =>
          ret (array_concat _users (Casting.identified current)))
       [] users).
Proof. apply framed_array_reduce. intros. apply framed_ret. Qed.

Lemma framed_findUser_body name users :
  framed (length users)
    (user <- array_find
               (fun u => n <- liftO (get_prop "name" u) ;;
                         liftO (loose_eq_str n name))
               users ;;
     ret (if ToBoolean user
          then object_literal [("value", user); ("_type", VStr "success")]
          else object_literal [("error", VErr "Not found.");
                               ("_type", VStr "error")])).
Proof.
  rewrite <- (Nat.add_0_r (length users)). apply framed_bind.
  - apply framed_array_find, framed_name_callback.
  - intros. apply framed_ret.
Qed.

Lemma frame_findUser name s :
  st_users (ReturnTypes.findUser name s).2 = st_users s /\
  st_steps (ReturnTypes.findUser name s).2
    <= st_steps s + length (st_users s).
Proof. apply framed_after_read. intros. apply framed_findUser_body. Qed.

Lemma frame_n1 s :
  st_users (Casting.n1 s).2 = st_users s /\
  st_steps (Casting.n1 s).2 <= st_steps s + length (st_users s).
Proof. apply framed_after_read. intros. apply framed_reduce_identified. Qed.

Lemma framed_isAdmin u : framed 0 (TypeGuards.isAdmin u).
Proof. apply framed_liftO. Qed.

Lemma framed_getNewUser : framed 0 ReturnTypes.getNewUser.
Proof. apply framed_ret. Qed.
End Frames.

(** ** Termination and the frame of every function *)

(** C7.  Every function of the source comes to an outcome on every input
    and from every state: the functions without iteration make no callback
    invocation, the lookups make at most one per element of the array they
    search, [reduce] makes at most one per element of [users], and
    [isAdmin] evaluates at most three statements. *)
Theorem every_function_terminates `{Engine} (s : state) :
  (forall user, finishes_within 0 (StrictNullCheck.warnUser user) s) /\
  (forall yes, finishes_within 0 (StrictNullCheck.getUser yes) s) /\
  finishes_within 0 Casting.getUser s /\
  (forall users, finishes_within (length users) (Casting.findUser users) s) /\
  (forall name,
     finishes_within (length (st_users s)) (ReturnTypes.findUser name) s /\
     finishes_within (length (st_users s)) (ReturnTypes.strictFindUser name) s /\
     finishes_within (length (st_users s)) (ReturnTypes.constFindUser name) s /\
     finishes_within (length (st_users s)) (ReturnTypes.overwriteFindUser name) s) /\
  finishes_within (length (st_users s)) Casting.n1 s /\
  finishes_within (length (st_users s)) Casting.n2 s /\
  finishes_within (length (st_users s)) Casting.n3 s /\
  finishes_within 0 ReturnTypes.getNewUser s /\
  (forall u,
     finishes_within 0 (TypeGuards.isAdmin u) s /\
     length (exec 1 TypeGuards.isAdmin_body u).1 <= 3).
Proof.
  assert (Hfind : forall name,
            finishes_within (length (st_users s)) (ReturnTypes.findUser name) s).
  { intros name. destruct (frame_findUser name s) as [_ Hsteps].
    destruct (ReturnTypes.findUser name s) as [o s'] eqn:Heq.
    exists o, s'. split; [exact Heq | exact Hsteps]. }
  assert (Hn1 : finishes_within (length (st_users s)) Casting.n1 s).
  { destruct (frame_n1 s) as [_ Hsteps].
    destruct (Casting.n1 s) as [o s'] eqn:Heq.
    exists o, s'. split; [exact Heq | exact Hsteps]. }
  repeat first [apply conj | intros ?].
  - apply framed_finishes, framed_warnUser.
  - apply framed_finishes, framed_getUser.
  - apply framed_finishes, framed_ret.
  - apply framed_finishes, framed_Casting_findUser.
  - apply Hfind.
  - apply Hfind.
  - apply Hfind.
  - apply Hfind.
  - exact Hn1.
  - exact Hn1.
  - exact Hn1.
  - apply framed_finishes, framed_getNewUser.
  - apply framed_finishes, framed_isAdmin.
  - simpl. unfold as_, get_prop.
    destruct (is_nullish u); simpl; [lia|].
    destruct (ToBoolean _); simpl; lia.
Qed.

(** C8.  No function or statement of the source changes the array bound to
    [users]: whatever the state and the arguments, the array after the run
    is the array before it.  This covers [find] and [reduce], which read
    it, and the runs that end in an exception. *)
Theorem users_never_mutated `{Engine} (s : state) :
  (forall user, st_users (StrictNullCheck.warnUser user s).2 = st_users s) /\
  (forall yes, st_users (StrictNullCheck.getUser yes s).2 = st_users s) /\
  st_users (StrictNullCheck.found s).2 = st_users s /\
  st_users (StrictNullCheck.script s).2 = st_users s /\
  st_users (Casting.getUser s).2 = st_users s /\
  (forall users, st_users (Casting.findUser users s).2 = st_users s) /\
  st_users (Casting.n1 s).2 = st_users s /\
  st_users (Casting.n2 s).2 = st_users s /\
  st_users (Casting.n3 s).2 = st_users s /\
  (forall name,
     st_users (ReturnTypes.findUser name s).2 = st_users s /\
     st_users (ReturnTypes.strictFindUser name s).2 = st_users s /\
     st_users (ReturnTypes.constFindUser name s).2 = st_users s /\
     st_users (ReturnTypes.overwriteFindUser name s).2 = st_users s) /\
  st_users (ReturnTypes.getNewUser s).2 = st_users s /\
  (forall u, st_users (TypeGuards.isAdmin u s).2 = st_users s) /\
  (st_users s = domain.users ->
   forall name, st_users (ReturnTypes.findUser name s).2 = domain.users).
Proof.
  repeat first [apply conj | intros ?].
  - apply framed_warnUser.
  - apply framed_getUser.
  - apply framed_found.
  - apply framed_script.
  - reflexivity.
  - apply framed_Casting_findUser.
  - apply frame_n1.
  - apply frame_n1.
  - apply frame_n1.
  - apply frame_findUser.
  - apply frame_findUser.
  - apply frame_findUser.
  - apply frame_findUser.
  - reflexivity.
  - reflexivity.
  - match goal with Hs : st_users s = _ |- _ => rewrite <- Hs end.
    apply frame_findUser.
Qed.

Lemma users_never_mutated_witness :
  st_users (@ReturnTypes.findUser decimal_engine "B" initial_state).2
  = domain.users.
Proof.
  apply (@users_never_mutated decimal_engine initial_state). reflexivity.
Defined.

(** ** The lookups of #4 *)

Section Lookups.
Context `{Engine}.

(** On an array of users, [find] with the callback [u.name == name]
    gives the first element whose name is [name], after one callback
    invocation per element visited. *)
Lemma array_find_by_name name users s :
  Forall (fun u => has_type true domain.User u = true) users ->
  exists k,
    k <= length users /\
    array_find
      (fun u => n <- liftO (get_prop "name" u) ;; liftO (loose_eq_str n name))
      users s
    = (Ret (default VUndefined (List.find (name_is name) users)),
       mkState (st_users s) (st_console s) (st_steps s + k)).
Proof.
  intros Husers. revert s.
  induction Husers as [|u rest Hu _ IH]; intros s.
  - exists 0. split; [done|]. simpl. unfold ret.
    rewrite Nat.add_0_r. by destruct s.
  - apply User_strict_inv in Hu as (props & n & e & -> & Hn & _).
    simpl. unfold bind at 1 2. simpl. unfold get_prop, name_is. simpl.
    rewrite Hn. simpl. destruct (String.eqb n name).
    + exists 1. split; [lia|]. unfold ret. by rewrite Nat.add_1_r.
    + destruct (IH (mkState (st_users s) (st_console s) (S (st_steps s))))
        as (k & Hk & Hrun).
      exists (S k). split; [lia|]. etrans; [exact Hrun|].
      simpl. by rewrite Nat.add_succ_r.
Qed.

Lemma find_is_object name users user :
  Forall (fun u => has_type true domain.User u = true) users ->
  List.find (name_is name) users = Some user ->
  ToBoolean user = true.
Proof.
  intros Husers Hfind. apply find_some in Hfind as [Hin _].
  rewrite Forall_forall in Husers.
  apply list_elem_of_In, Husers, User_strict_inv in Hin
    as (props & _ & _ & -> & _).
  reflexivity.
Qed.

Lemma findUser_result name s :
  Forall (fun u => has_type true domain.User u = true) (st_users s) ->
  exists k,
    k <= length (st_users s) /\
    ReturnTypes.findUser name s
    = (Ret (lookup_result name (st_users s)),
       mkState (st_users s) (st_console s) (st_steps s + k)).
Proof.
  intros Husers.
  destruct (array_find_by_name name (st_users s) s Husers) as (k & Hk & Hrun).
  exists k. split; [done|].
  unfold ReturnTypes.findUser, read_users, bind in Hrun |- *.
  rewrite Hrun. unfold ret, lookup_result. f_equal. f_equal.
  destruct (List.find (name_is name) (st_users s)) as [user|] eqn:Hfind; simpl.
  - rewrite (find_is_object _ _ _ Husers Hfind).
    unfold object_literal. simpl. by rewrite insert_empty.
  - reflexivity.
Qed.
End Lookups.

(** C9.  The four lookups are the same function of the name and the state:
    they differ in annotations only, which are erased.  When [users] holds
    users, each returns a success record around the first user whose name
    is the argument, or an error record around [Error("Not found.")] when
    there is none. *)
Theorem four_lookups_agree `{Engine} (name : string) :
  ReturnTypes.strictFindUser name = ReturnTypes.findUser name /\
  ReturnTypes.constFindUser name = ReturnTypes.findUser name /\
  ReturnTypes.overwriteFindUser name = ReturnTypes.findUser name /\
  (forall s,
     Forall (fun u => has_type true domain.User u = true) (st_users s) ->
     exists k,
       k <= length (st_users s) /\
       ReturnTypes.findUser name s
       = (Ret (lookup_result name (st_users s)),
          mkState (st_users s) (st_console s) (st_steps s + k))).
Proof.
  split; [reflexivity|]. split; [reflexivity|]. split; [reflexivity|].
  intros s. apply findUser_result.
Qed.

Lemma four_lookups_agree_witness :
  exists k,
    k <= 2 /\
    @ReturnTypes.findUser decimal_engine "B" initial_state
    = (Ret (lookup_result "B" domain.users), mkState domain.users [] (0 + k)).
Proof.
  apply (proj2 (proj2 (proj2 (@four_lookups_agree decimal_engine "B")))
           initial_state).
  repeat constructor.
Defined.

(** C10.  With [users] as domain.ts defines it, [strictFindUser(name)]
    returns the error record, around [Error("Not found.")], if and only if
    no element of [users] has the name [name]; otherwise it returns the
    success record around the first element with that name.  It succeeds
    exactly for the names ["A"] and ["B"]. *)
Theorem strictFindUser_error_iff_absent `{Engine} (name : string) (s : state) :
  st_users s = domain.users ->
  exists v s',
    ReturnTypes.strictFindUser name s = (Ret v, s') /\
    (prop_lookup "_type" v = Some (VStr "error") <->
     ~ exists u, u ∈ domain.users /\ prop_lookup "name" u = Some (VStr name)) /\
    (prop_lookup "_type" v = Some (VStr "error") ->
     v = VObj {[ "_type" := VStr "error"; "error" := VErr "Not found." ]}) /\
    (prop_lookup "_type" v <> Some (VStr "error") ->
     exists u,
       List.find (name_is name) domain.users = Some u /\
       v = VObj {[ "_type" := VStr "success"; "value" := u ]}) /\
    (prop_lookup "_type" v = Some (VStr "success") <->
     name = "A" \/ name = "B").
Proof.
  intros Hs.
  destruct (findUser_result name s) as (k & _ & Hrun).
  { rewrite Hs. repeat constructor. }
  rewrite Hs in Hrun.
  exists (lookup_result name domain.users),
         (mkState domain.users (st_console s) (st_steps s + k)).
  split; [exact Hrun|]. clear Hrun Hs.
  assert (Hin : forall u, u ∈ domain.users ->
                  prop_lookup "name" u = Some (VStr "A") \/
                  prop_lookup "name" u = Some (VStr "B")).
  { intros u [->|[->|[]%elem_of_nil]%elem_of_cons]%elem_of_cons; auto. }
  unfold lookup_result, domain.users, List.find, name_is.
  change (prop_lookup "name"
            (object_literal [("name", VStr "A"); ("email", VStr "A@A")]))
    with (Some (VStr "A")).
  change (prop_lookup "name"
            (object_literal [("name", VStr "B"); ("email", VStr "B@B")]))
    with (Some (VStr "B")).
  destruct (String.eqb "A" name) eqn:HA.
  - apply String.eqb_eq in HA. subst name. repeat apply conj; try done.
    + intros Hno. exfalso. apply Hno. eexists. split; [by left | reflexivity].
    + intros _. eexists. split; reflexivity.
    + auto.
  - apply String.eqb_neq in HA. destruct (String.eqb "B" name) eqn:HB.
    + apply String.eqb_eq in HB. subst name. repeat apply conj; try done.
      * intros Hno. exfalso. apply Hno.
        eexists. split; [right; by left | reflexivity].
      * intros _. eexists. split; reflexivity.
      * auto.
    + apply String.eqb_neq in HB. repeat apply conj; try done.
      * intros _ (u & Hu & Hname). destruct (Hin u Hu); congruence.
      * intros [->| ->]; congruence.
Qed.

Lemma strictFindUser_error_iff_absent_witness :
  exists v s',
    @ReturnTypes.strictFindUser decimal_engine "C" initial_state = (Ret v, s') /\
    v = VObj {[ "_type" := VStr "error"; "error" := VErr "Not found." ]}.
Proof.
  destruct (@strictFindUser_error_iff_absent decimal_engine "C" initial_state
              eq_refl) as (v & s' & Hrun & Hiff & Herr & _).
  exists v, s'. split; [exact Hrun|]. apply Herr, Hiff.
  intros (u & Hu & Hname).
  apply elem_of_cons in Hu as [->|Hu]; [discriminate|].
  apply elem_of_cons in Hu as [->|Hu]; [discriminate|].
  by apply elem_of_nil in Hu.
Defined.

(** ** Further properties of the snippets *)

(** *** #1 Strict Null Check *)

(** X2.  [warnUser] writes one line or nothing: either it returns after
    adding exactly one line to the console, or it throws a [TypeError] and
    leaves the state as it was.  It throws on [null] and [undefined]; on a
    value that has neither a [name] nor an [email] it does not fail but
    greets ["undefined"]. *)
Theorem warnUser_logs_one_line_or_nothing `{Engine} (user : value) (s : state) :
  ((exists line,
      StrictNullCheck.warnUser user s =
      (Ret tt, mkState (st_users s) (st_console s ++ [line]) (st_steps s))) \/
   StrictNullCheck.warnUser user s = (Throw TypeError, s)) /\
  (is_nullish user = true ->
   StrictNullCheck.warnUser user s = (Throw TypeError, s)) /\
  (is_nullish user = false ->
   prop_lookup "name" user = None ->
   prop_lookup "email" user = None ->
   StrictNullCheck.warnUser user s =
   (Ret tt,
    mkState (st_users s)
            (st_console s ++
             ["Hi undefined! We're warning about something on undefined"])
            (st_steps s))).
Proof.
  unfold StrictNullCheck.warnUser, bind, liftO, get_prop.
  destruct (is_nullish user); simpl.
  - split; [by right|]. split; [done | discriminate].
  - split; [|split; [discriminate|]].
    + destruct (to_string (default VUndefined (prop_lookup "name" user)))
        as [n|[]]; [|by right].
      destruct (to_string (default VUndefined (prop_lookup "email" user)))
        as [e|[]]; [|by right].
      left. eexists. reflexivity.
    + intros _ -> ->. reflexivity.
Qed.

Lemma warnUser_logs_one_line_or_nothing_witness :
  @StrictNullCheck.warnUser decimal_engine (VNum 7) initial_state =
  (Ret tt,
   mkState domain.users
           ["Hi undefined! We're warning about something on undefined"] 0).
Proof.
  apply (proj2 (proj2 (@warnUser_logs_one_line_or_nothing decimal_engine
                         (VNum 7) initial_state))); reflexivity.
Defined.

(** X3.  [getUser(yes)] returns [null] exactly when the argument is given
    (is not [undefined]) and is falsy; then reading [name] of the result
    throws a [TypeError].  In every other case, among them the call
    [getUser()] without argument, it returns the user ["A"], a [User]. *)
Theorem getUser_null_when_falsy (yes : value) (s : state) :
  exists a,
    StrictNullCheck.getUser yes s = (Ret a, s) /\
    (is_nullish yes = false \/ yes = VNull ->
     ToBoolean yes = false ->
     a = VNull /\ get_prop "name" a = Throw TypeError) /\
    (yes = VUndefined \/ ToBoolean yes = true ->
     a = VObj {[ "name" := VStr "A"; "email" := VStr "A@A" ]} /\
     has_type true domain.User a = true /\
     get_prop "name" a = Ret (VStr "A")).
Proof.
  unfold StrictNullCheck.getUser, ret.
  destruct yes as [| |[]|n|str|props|m]; simpl;
    try destruct (n =? 0)%Z; try destruct (String.eqb str ""); simpl;
    eexists; (split; [reflexivity|]);
    (split; [intros [Hc|Hc] Hf | intros [Hc|Hc]]); try done; by repeat split.
Qed.

Lemma getUser_null_when_falsy_witness :
  exists a,
    StrictNullCheck.getUser (VStr "") initial_state = (Ret a, initial_state) /\
    a = VNull /\ get_prop "name" a = Throw TypeError.
Proof.
  destruct (getUser_null_when_falsy (VStr "") initial_state)
    as (a & Hrun & Hnull & _).
  exists a. split; [exact Hrun|]. apply Hnull; [left|]; reflexivity.
Defined.

(** X4.  From every state the statements of the first snippet end in the
    [TypeError] of [warnUser(null)]: the console has received the greeting
    of the first call and nothing else, [find] has not been started, and
    none of the later statements has run. *)
Theorem script_stops_at_warnUser_null `{Engine} (s : state) :
  StrictNullCheck.script s =
  (Throw TypeError,
   mkState (st_users s)
           (st_console s ++
            ["Hi Luciano! We're warning about something on luciano.lima@farfetch.com"])
           (st_steps s)).
Proof. reflexivity. Qed.

(** *** #4 Return Types: the lookups on arbitrary arrays *)

Lemma name_is_object name u :
  name_is name u = true ->
  is_nullish u = false /\ ToBoolean u = true /\
  prop_lookup "name" u = Some (VStr name).
Proof.
  unfold name_is. destruct u as [| | | |s|props|m]; try discriminate.
  - change (prop_lookup "name" (VStr s)) with (string_own_props s !! "name").
    rewrite string_own_props_alpha; [discriminate | vm_compute; lia].
  - change (prop_lookup "name" (VObj props)) with (props !! "name").
    destruct (props !! "name") as [[]|]; try discriminate.
    by intros ->%String.eqb_eq.
  - change (prop_lookup "name" (VErr m)) with (Some (VStr "Error")).
    by intros ->%String.eqb_eq.
Qed.

Lemma find_name_is_None name (users : list value) :
  List.find (name_is name) users = None <->
  forall u, u ∈ users -> prop_lookup "name" u <> Some (VStr name).
Proof.
  split.
  - intros Hnone u Hin%list_elem_of_In Hname.
    apply (find_none _ _ Hnone) in Hin.
    unfold name_is in Hin. rewrite Hname, String.eqb_refl in Hin. done.
  - intros Hall. destruct (List.find (name_is name) users) as [u|] eqn:Hfind;
      [|done].
    apply find_some in Hfind as [Hin Hname]. exfalso.
    apply (Hall u); [by apply list_elem_of_In|].
    by apply name_is_object in Hname as (_ & _ & ?).
Qed.

Lemma lookup_result_typed name users :
  Forall (fun u => has_type true domain.User u = true) users ->
  has_type true (domain.Result TErrorObj domain.User) (lookup_result name users)
  = true.
Proof.
  intros Husers. unfold lookup_result, domain.Result.
  change (has_type true (TUnion ?a ?b) ?v)
    with (has_type true a v || has_type true b v).
  destruct (List.find (name_is name) users) as [u|] eqn:Hfind; [|reflexivity].
  apply find_some in Hfind as [Hin _].
  rewrite Forall_forall in Husers. apply list_elem_of_In, Husers in Hin.
  apply orb_true_intro. left.
  unfold domain.Success. rewrite has_type_obj.
  cbn [negb andb orb is_nullish forallb fst snd prop_lookup].
  rewrite lookup_insert_eq, lookup_insert_ne, lookup_singleton_eq by done.
  by rewrite Hin.
Qed.

Section LookupsOnArrays.
Context `{Engine}.

(** Users with another name are passed over, one callback invocation
    each. *)
Lemma array_find_skip name pre rest s :
  Forall (fun u => has_type true domain.User u = true /\
                   name_is name u = false) pre ->
  array_find
    (fun u => n <- liftO (get_prop "name" u) ;; liftO (loose_eq_str n name))
    (pre ++ rest) s
  = array_find
      (fun u => n <- liftO (get_prop "name" u) ;; liftO (loose_eq_str n name))
      rest (mkState (st_users s) (st_console s) (st_steps s + length pre)).
Proof.
  intros Hpre. revert s. induction Hpre as [|u pre [Hu Hname] _ IH]; intros s.
  - simpl. rewrite Nat.add_0_r. by destruct s.
  - apply User_strict_inv in Hu as (props & n & e & -> & Hn & _).
    unfold name_is in Hname. simpl in Hname. rewrite Hn in Hname.
    simpl. unfold bind at 1 2. simpl. unfold bind at 1. unfold liftO at 1 2.
    unfold get_prop at 1. simpl. rewrite Hn. simpl. rewrite Hname.
    rewrite IH. simpl. by rewrite Nat.add_succ_r.
Qed.

Lemma findUser_unfold name s :
  ReturnTypes.findUser name s =
  match array_find
          (fun u => n <- liftO (get_prop "name" u) ;; liftO (loose_eq_str n name))
          (st_users s) s
  with
  | (Ret user, s') =>
      (Ret (if ToBoolean user
            then object_literal [("value", user); ("_type", VStr "success")]
            else object_literal [("error", VErr "Not found.");
                                 ("_type", VStr "error")]), s')
  | (Throw e, s') => (Throw e, s')
  end.
Proof. reflexivity. Qed.

Lemma success_record user :
  object_literal [("value", user); ("_type", VStr "success")]
  = VObj {[ "_type" := VStr "success"; "value" := user ]}.
Proof. unfold object_literal. simpl. by rewrite insert_empty. Qed.
End LookupsOnArrays.

(** X5.  The lookup stops at the first match.  If the users before the
    first element named [name] are users with other names, [findUser(name)]
    returns the success record around that element after one callback
    invocation per element up to it; what comes after it in the array is
    not inspected and may be anything. *)
Theorem findUser_stops_at_first_match `{Engine}
    (name : string) (s : state) (pre rest : list value) (u : value) :
  st_users s = (pre ++ u :: rest)%list ->
  Forall (fun u => has_type true domain.User u = true /\
                   name_is name u = false) pre ->
  name_is name u = true ->
  ReturnTypes.findUser name s =
  (Ret (VObj {[ "_type" := VStr "success"; "value" := u ]}),
   mkState (st_users s) (st_console s) (st_steps s + S (length pre))).
Proof.
  intros Hs Hpre Hu. rewrite findUser_unfold, Hs, array_find_skip by done.
  apply name_is_object in Hu as (Hnn & Htrue & Hname).
  simpl. unfold bind at 1 2. simpl. unfold bind at 1. unfold liftO at 1 2.
  unfold get_prop at 1. rewrite Hnn, Hname. simpl.
  rewrite String.eqb_refl. unfold ret. rewrite Htrue, success_record.
  by rewrite <- Hs, Nat.add_succ_r.
Qed.

Lemma findUser_stops_at_first_match_witness :
  @ReturnTypes.findUser decimal_engine "B"
    (mkState [VObj {[ "name" := VStr "A"; "email" := VStr "A@A" ]};
              VObj {[ "name" := VStr "B" ]}; VNull] [] 0)
  = (Ret (VObj {[ "_type" := VStr "success";
                  "value" := VObj {[ "name" := VStr "B" ]} ]}),
     mkState [VObj {[ "name" := VStr "A"; "email" := VStr "A@A" ]};
              VObj {[ "name" := VStr "B" ]}; VNull] [] 2).
Proof.
  apply (@findUser_stops_at_first_match decimal_engine "B"
           (mkState [VObj {[ "name" := VStr "A"; "email" := VStr "A@A" ]};
                     VObj {[ "name" := VStr "B" ]}; VNull] [] 0)
           [VObj {[ "name" := VStr "A"; "email" := VStr "A@A" ]}]
           [VNull] (VObj {[ "name" := VStr "B" ]})).
  - reflexivity.
  - repeat constructor.
  - reflexivity.
Defined.

(** X6.  A [null] or [undefined] element stops the lookup with a
    [TypeError], raised by the callback's read of its [name], when no user
    before it has the name looked for; [users] is left as it was and the
    console is not written. *)
Theorem findUser_throws_on_null_element `{Engine}
    (name : string) (s : state) (pre rest : list value) (v : value) :
  st_users s = (pre ++ v :: rest)%list ->
  Forall (fun u => has_type true domain.User u = true /\
                   name_is name u = false) pre ->
  is_nullish v = true ->
  ReturnTypes.findUser name s =
  (Throw TypeError,
   mkState (st_users s) (st_console s) (st_steps s + S (length pre))).
Proof.
  intros Hs Hpre Hv. rewrite findUser_unfold, Hs, array_find_skip by done.
  simpl. unfold bind at 1 2. simpl. unfold bind at 1. unfold liftO at 1.
  unfold get_prop at 1. rewrite Hv.
  by rewrite <- Hs, Nat.add_succ_r.
Qed.

Lemma findUser_throws_on_null_element_witness :
  @ReturnTypes.findUser decimal_engine "B"
    (mkState [VObj {[ "name" := VStr "A"; "email" := VStr "A@A" ]};
              VNull; VObj {[ "name" := VStr "B"; "email" := VStr "B@B" ]}]
             [] 0)
  = (Throw TypeError,
     mkState [VObj {[ "name" := VStr "A"; "email" := VStr "A@A" ]};
              VNull; VObj {[ "name" := VStr "B"; "email" := VStr "B@B" ]}]
             [] 2).
Proof.
  apply (@findUser_throws_on_null_element decimal_engine "B"
           (mkState [VObj {[ "name" := VStr "A"; "email" := VStr "A@A" ]};
                     VNull;
                     VObj {[ "name" := VStr "B"; "email" := VStr "B@B" ]}]
                    [] 0)
           [VObj {[ "name" := VStr "A"; "email" := VStr "A@A" ]}]
           [VObj {[ "name" := VStr "B"; "email" := VStr "B@B" ]}] VNull).
  - reflexivity.
  - repeat constructor.
  - reflexivity.
Defined.

(** X7.  The callback compares with [==], which converts.  An element
    whose [name] is an integer [n], of the range in which every integer is
    a number of the language, is found by a string whose numeric value is
    [n], when the elements before it are users with other names: the lookup
    returns the success record around it. *)
Theorem findUser_matches_number_by_numeral `{Engine}
    (name : string) (n : Z) (s : state)
    (pre rest : list value) (props : gmap string value) :
  StringToNumber name = Some n ->
  (Z.abs n <= 2 ^ 53)%Z ->
  st_users s = (pre ++ VObj props :: rest)%list ->
  Forall (fun u => has_type true domain.User u = true /\
                   name_is name u = false) pre ->
  props !! "name" = Some (VNum n) ->
  ReturnTypes.findUser name s =
  (Ret (VObj {[ "_type" := VStr "success"; "value" := VObj props ]}),
   mkState (st_users s) (st_console s) (st_steps s + S (length pre))).
Proof.
  intros Hnum _ Hs Hpre Hname.
  rewrite findUser_unfold, Hs, array_find_skip by done.
  simpl. unfold bind at 1 2. simpl. unfold bind at 1. unfold liftO at 1 2.
  unfold get_prop at 1. simpl. rewrite Hname. simpl.
  rewrite bool_decide_eq_true_2 by done.
  unfold ret. simpl. by rewrite success_record, <- Hs, Nat.add_succ_r.
Qed.

Lemma findUser_matches_number_by_numeral_witness :
  @ReturnTypes.findUser decimal_engine "7"
    (mkState [VObj {[ "name" := VStr "A"; "email" := VStr "A@A" ]};
              VObj {[ "name" := VNum 7 ]}; VNull] [] 0)
  = (Ret (VObj {[ "_type" := VStr "success";
                  "value" := VObj {[ "name" := VNum 7 ]} ]}),
     mkState [VObj {[ "name" := VStr "A"; "email" := VStr "A@A" ]};
              VObj {[ "name" := VNum 7 ]}; VNull] [] 2).
Proof.
  apply (@findUser_matches_number_by_numeral decimal_engine "7" 7
           (mkState [VObj {[ "name" := VStr "A"; "email" := VStr "A@A" ]};
                     VObj {[ "name" := VNum 7 ]}; VNull] [] 0)
           [VObj {[ "name" := VStr "A"; "email" := VStr "A@A" ]}]
           [VNull] {[ "name" := VNum 7 ]}).
  - reflexivity.
  - vm_compute. discriminate.
  - reflexivity.
  - repeat constructor.
  - reflexivity.
Defined.

(** X8.  The return-type annotation of [strictFindUser] and
    [overwriteFindUser] is honoured at run time: when [users] holds users,
    each of the four lookups returns, for every name, a value of type
    [Result<Error, User>]. *)
Theorem lookups_return_a_Result `{Engine} (name : string) (s : state) :
  Forall (fun u => has_type true domain.User u = true) (st_users s) ->
  exists v s',
    ReturnTypes.findUser name s = (Ret v, s') /\
    ReturnTypes.strictFindUser name s = (Ret v, s') /\
    ReturnTypes.constFindUser name s = (Ret v, s') /\
    ReturnTypes.overwriteFindUser name s = (Ret v, s') /\
    has_type true (domain.Result TErrorObj domain.User) v = true.
Proof.
  intros Husers. destruct (findUser_result name s Husers) as (k & _ & Hrun).
  eexists _, _. repeat apply conj; try exact Hrun.
  by apply lookup_result_typed.
Qed.

Lemma lookups_return_a_Result_witness :
  exists v s',
    @ReturnTypes.findUser decimal_engine "Z" initial_state = (Ret v, s') /\
    @ReturnTypes.strictFindUser decimal_engine "Z" initial_state = (Ret v, s') /\
    @ReturnTypes.constFindUser decimal_engine "Z" initial_state = (Ret v, s') /\
    @ReturnTypes.overwriteFindUser decimal_engine "Z" initial_state = (Ret v, s') /\
    has_type true (domain.Result TErrorObj domain.User) v = true.
Proof.
  apply (@lookups_return_a_Result decimal_engine "Z" initial_state).
  repeat constructor.
Defined.

(** X9.  On every array of users the lookup fails exactly when the name is
    absent, and a success is a user of the array that has the name: the
    result is the error record around [Error("Not found.")] if no element
    has the name, and otherwise the success record around an element of
    [users] whose [name] is the argument.  So every user of [users] is
    found under its own name, or an earlier user of the same name is. *)
Theorem findUser_fails_iff_absent `{Engine} (name : string) (s : state) :
  Forall (fun u => has_type true domain.User u = true) (st_users s) ->
  exists v s',
    ReturnTypes.findUser name s = (Ret v, s') /\
    ((v = VObj {[ "_type" := VStr "error"; "error" := VErr "Not found." ]} /\
      forall u, u ∈ st_users s -> prop_lookup "name" u <> Some (VStr name)) \/
     (exists found,
        v = VObj {[ "_type" := VStr "success"; "value" := found ]} /\
        found ∈ st_users s /\
        prop_lookup "name" found = Some (VStr name))).
Proof.
  intros Husers. destruct (findUser_result name s Husers) as (k & _ & Hrun).
  eexists _, _. split; [exact Hrun|]. unfold lookup_result.
  destruct (List.find (name_is name) (st_users s)) as [found|] eqn:Hfind.
  - right. exists found. split; [done|].
    apply find_some in Hfind as [Hin Hname]. split; [by apply list_elem_of_In|].
    by apply name_is_object in Hname as (_ & _ & ?).
  - left. split; [done|]. by apply find_name_is_None.
Qed.

Lemma findUser_fails_iff_absent_witness :
  exists v s',
    @ReturnTypes.findUser decimal_engine "B" initial_state = (Ret v, s') /\
    ((v = VObj {[ "_type" := VStr "error"; "error" := VErr "Not found." ]} /\
      forall u, u ∈ domain.users -> prop_lookup "name" u <> Some (VStr "B")) \/
     (exists found,
        v = VObj {[ "_type" := VStr "success"; "value" := found ]} /\
        found ∈ domain.users /\
        prop_lookup "name" found = Some (VStr "B"))).
Proof.
  apply (@findUser_fails_iff_absent decimal_engine "B" initial_state).
  repeat constructor.
Defined.

(** *** #4 Return Types: the [switch] statements *)

Lemma has_type_nonstrict_nullish t v :
  is_nullish v = true -> has_type false t v = true.
Proof. intros Hv. destruct t; simpl; by rewrite Hv. Qed.

Lemma Result_tag (E T : ty) (b : value) :
  has_type true (domain.Result E T) b = true ->
  is_nullish b = false /\
  exists tag,
    prop_lookup "_type" b = Some (VStr tag) /\
    (tag = "success" \/ tag = "error").
Proof.
  unfold domain.Result, domain.Success, domain.Error.
  change (has_type true (TUnion ?x ?y) b)
    with (has_type true x b || has_type true y b).
  rewrite !has_type_obj. simpl.
  destruct (is_nullish b); simpl; [discriminate|].
  destruct (prop_lookup "_type" b) as [[| | | |tag| |]|]; simpl;
    try discriminate.
  destruct (String.eqb_spec tag "success") as [->|_]; [eauto|].
  destruct (String.eqb_spec tag "error") as [->|_]; [eauto|].
  discriminate.
Qed.

Lemma switch_clauses_of_Result (E T : ty) (b : value) :
  has_type true (domain.Result E T) b = true ->
  exists tag,
    prop_lookup "_type" b = Some (VStr tag) /\
    (tag = "success" \/ tag = "error") /\
    ReturnTypesUse.switch_a b = Ret Default /\
    ReturnTypesUse.switch_b b = Ret (Case tag) /\
    ReturnTypesUse.switch_c b = Ret (Case tag) /\
    (forall c, is_nullish c = false ->
               ReturnTypesUse.switch_d c b = Ret (Case tag)).
Proof.
  intros (Hnn & tag & Htag & Hcase)%Result_tag.
  exists tag. split; [done|]. split; [done|].
  unfold ReturnTypesUse.switch_a, ReturnTypesUse.switch_b,
    ReturnTypesUse.switch_c, ReturnTypesUse.switch_d, get_prop.
  rewrite Hnn, Htag.
  destruct Hcase as [->| ->]; repeat split; intros c ->; reflexivity.
Qed.

(** X10.  Under strict null checks a [switch] over the [_type] of a
    [Result] with the clauses ["success"] and ["error"] is exhaustive: it
    runs the clause of the value's tag, its reads of [value] and [error] do
    not throw, and [default] is not reached; the [switch] of the snippet
    whose only clause is [""] always runs [default].  Without strict null
    checks some value of type [Result] reaches [default]. *)
Theorem switch_over_Result_is_exhaustive (E T : ty) :
  (forall b,
     has_type true (domain.Result E T) b = true ->
     exists tag,
       prop_lookup "_type" b = Some (VStr tag) /\
       (tag = "success" \/ tag = "error") /\
       ReturnTypesUse.switch_a b = Ret Default /\
       ReturnTypesUse.switch_b b = Ret (Case tag) /\
       ReturnTypesUse.switch_c b = Ret (Case tag) /\
       (forall c, is_nullish c = false ->
                  ReturnTypesUse.switch_d c b = Ret (Case tag))) /\
  (exists b,
     has_type false (domain.Result E T) b = true /\
     ReturnTypesUse.switch_b b = Ret Default).
Proof.
  split.
  - intros b. apply switch_clauses_of_Result.
  - exists (VObj {[ "_type" := VNull; "value" := VNull ]}).
    split; [|reflexivity].
    unfold domain.Result, domain.Success.
    change (has_type false (TUnion ?x ?y) ?v)
      with (has_type false x v || has_type false y v).
    rewrite has_type_obj.
    cbn [negb andb orb is_nullish forallb fst snd prop_lookup].
    rewrite lookup_insert_eq, lookup_insert_ne, lookup_singleton_eq by done.
    by rewrite !(has_type_nonstrict_nullish _ VNull eq_refl).
Qed.

Lemma switch_over_Result_is_exhaustive_witness :
  exists tag,
    prop_lookup "_type" success_with_error = Some (VStr tag) /\
    (tag = "success" \/ tag = "error") /\
    ReturnTypesUse.switch_a success_with_error = Ret Default /\
    ReturnTypesUse.switch_b success_with_error = Ret (Case tag) /\
    ReturnTypesUse.switch_c success_with_error = Ret (Case tag) /\
    (forall c, is_nullish c = false ->
               ReturnTypesUse.switch_d c success_with_error = Ret (Case tag)).
Proof.
  apply (proj1 (switch_over_Result_is_exhaustive TErrorObj domain.User)).
  reflexivity.
Defined.

(** *** #2 Casting: [reduce] with [concat] *)

Lemma array_reduce_concat (g : value -> value) init arr s :
  array_reduce (fun _users current => ret (array_concat _users (g current)))
               init arr s
  = (Ret (init ++ map g arr)%list,
     mkState (st_users s) (st_console s) (st_steps s + length arr)).
Proof.
  revert init s. induction arr as [|x arr IH]; intros init s; simpl.
  - unfold ret. rewrite app_nil_r, Nat.add_0_r. by destruct s.
  - unfold bind, tick. simpl.
    change (ret (array_concat init (g x)) ?s0)
      with (Ret (array_concat init (g x)), s0).
    simpl. rewrite IH. simpl. unfold array_concat.
    by rewrite <- app_assoc, Nat.add_succ_r.
Qed.

(** X11.  The three folds [n1], [n2] and [n3] compute the same array from
    every state: the image of [users] under [{ ...current, id: 1 }], in the
    order of [users] and of the same length, after one callback invocation
    per element; on an empty [users] the result is the empty array. *)
Theorem reduce_concat_is_map (s : state) :
  Casting.n1 s =
  (Ret (map Casting.identified (st_users s)),
   mkState (st_users s) (st_console s) (st_steps s + length (st_users s))) /\
  Casting.n2 s = Casting.n1 s /\
  Casting.n3 s = Casting.n1 s /\
  (forall arr s', Casting.n1 s = (Ret arr, s') ->
                  length arr = length (st_users s)).
Proof.
  assert (Hn1 : Casting.n1 s =
    (Ret (map Casting.identified (st_users s)),
     mkState (st_users s) (st_console s) (st_steps s + length (st_users s)))).
  { unfold Casting.n1, bind at 1, read_users. apply array_reduce_concat. }
  split; [exact Hn1|]. split; [reflexivity|]. split; [reflexivity|].
  intros arr s'. rewrite Hn1. intros [= <- _]. apply length_map.
Qed.

(** X12.  [{ ...current, id: 1 }] always has [id] equal to [1], also when
    [current] has an [id] of its own; it keeps every other property of an
    object [current]; for a [current] that is [null] or [undefined] it is
    the object with the sole property [id].  It turns a [User] into an
    [IdentifiedUser], so the elements of [n1] are identified users when
    [users] holds users. *)
Theorem identified_sets_id (current : value) :
  prop_lookup "id" (Casting.identified current) = Some (VNum 1) /\
  (forall props k,
     current = VObj props -> k <> "id" ->
     prop_lookup k (Casting.identified current) = props !! k) /\
  (is_nullish current = true ->
   Casting.identified current = VObj {[ "id" := VNum 1 ]}) /\
  (has_type true domain.User current = true ->
   has_type true Casting.IdentifiedUser (Casting.identified current) = true) /\
  (forall users,
     Forall (fun u => has_type true domain.User u = true) users ->
     Forall (fun u => has_type true Casting.IdentifiedUser u = true)
            (map Casting.identified users)).
Proof.
  assert (Hid : forall v, prop_lookup "id" (Casting.identified v)
                          = Some (VNum 1)).
  { intros v. unfold Casting.identified. simpl. apply lookup_insert_eq. }
  assert (Hother : forall props k, k <> "id" ->
            prop_lookup k (Casting.identified (VObj props)) = props !! k).
  { intros props k Hk. unfold Casting.identified. simpl.
    by rewrite lookup_insert_ne. }
  assert (Htyped : forall v, has_type true domain.User v = true ->
            has_type true Casting.IdentifiedUser (Casting.identified v) = true).
  { intros v (props & n & e & -> & Hn & He)%User_strict_inv.
    unfold Casting.IdentifiedUser, domain.User.
    change (has_type true (TInter ?x ?y) ?v)
      with (has_type true x v && has_type true y v).
    rewrite !has_type_obj.
    cbn [negb andb orb is_nullish forallb fst snd].
    rewrite Hid, !Hother, Hn, He by done. reflexivity. }
  split; [apply Hid|]. split; [by intros props k ->; apply Hother|].
  split.
  { intros Hn. destruct current; try discriminate;
      unfold Casting.identified; simpl; by rewrite insert_empty. }
  split; [apply Htyped|].
  intros users Husers. apply Forall_map. simpl.
  eapply Forall_impl; [exact Husers|]. intros v. apply Htyped.
Qed.

Lemma identified_sets_id_witness :
  has_type true Casting.IdentifiedUser
    (Casting.identified
       (VObj {[ "name" := VStr "A"; "email" := VStr "A@A"; "id" := VNum 9 ]}))
  = true.
Proof.
  apply (proj1 (proj2 (proj2 (proj2 (identified_sets_id
           (VObj {[ "name" := VStr "A"; "email" := VStr "A@A";
                    "id" := VNum 9 ]})))))).
  reflexivity.
Defined.

(** *** #4 Return Types: the statements of the snippet *)

Lemma bind_run_ret {A B} (m : M A) (f : A -> M B) s a s' :
  m s = (Ret a, s') -> bind m f s = f a s'.
Proof. intros Hm. unfold bind. by rewrite Hm. Qed.

Lemma bind_liftO_ret {A B} (o : outcome A) (f : A -> M B) s a :
  o = Ret a -> bind (liftO o) f s = f a s.
Proof. by intros ->. Qed.

(** X13.  When [users] holds users, the statements of the snippet run to
    the end without an exception: the four lookups of ["A"] and their
    [switch] statements complete, the last binding [u] is the object of
    [getNewUser] with its [password], nothing is written to the console,
    [users] is unchanged and each lookup makes at most one callback
    invocation per element of [users]. *)
Theorem return_types_script_completes `{Engine} (s : state) :
  Forall (fun u => has_type true domain.User u = true) (st_users s) ->
  exists s',
    ReturnTypesUse.script s =
    (Ret (VObj {[ "name" := VStr "B"; "email" := VStr "B@B";
                  "password" := VStr "YOU SHOULD NOT SEE IT!!!" ]}), s') /\
    st_users s' = st_users s /\
    st_console s' = st_console s /\
    st_steps s' <= st_steps s + 4 * length (st_users s).
Proof.
  intros Husers.
  destruct (switch_clauses_of_Result TErrorObj domain.User
              (lookup_result "A" (st_users s))
              (lookup_result_typed "A" _ Husers))
    as (tag & _ & _ & Ha & Hb & Hc & Hd).
  assert (Hnn : is_nullish (lookup_result "A" (st_users s)) = false).
  { unfold lookup_result. by destruct (List.find _ _). }
  specialize (Hd _ Hnn).
  destruct (findUser_result "A" s Husers) as (k1 & Hk1 & H1).
  destruct (findUser_result "A" (mkState (st_users s) (st_console s)
                                         (st_steps s + k1)) Husers)
    as (k2 & Hk2 & H2).
  destruct (findUser_result "A" (mkState (st_users s) (st_console s)
                                         (st_steps s + k1 + k2)) Husers)
    as (k3 & Hk3 & H3).
  destruct (findUser_result "A" (mkState (st_users s) (st_console s)
                                         (st_steps s + k1 + k2 + k3)) Husers)
    as (k4 & Hk4 & H4).
  simpl in *.
  exists (mkState (st_users s) (st_console s)
                  (st_steps s + k1 + k2 + k3 + k4)).
  split; [|simpl; repeat split; lia].
  unfold ReturnTypesUse.script.
  change (ReturnTypes.strictFindUser "A") with (ReturnTypes.findUser "A").
  change (ReturnTypes.constFindUser "A") with (ReturnTypes.findUser "A").
  change (ReturnTypes.overwriteFindUser "A") with (ReturnTypes.findUser "A").
  rewrite (bind_run_ret _ _ _ _ _ H1), (bind_liftO_ret _ _ _ _ Ha).
  rewrite (bind_run_ret _ _ _ _ _ H2), (bind_liftO_ret _ _ _ _ Hb).
  rewrite (bind_run_ret _ _ _ _ _ H3), (bind_liftO_ret _ _ _ _ Hc).
  rewrite (bind_run_ret _ _ _ _ _ H4), (bind_liftO_ret _ _ _ _ Hd).
  reflexivity.
Qed.

Lemma return_types_script_completes_witness :
  exists s',
    @ReturnTypesUse.script decimal_engine initial_state =
    (Ret (VObj {[ "name" := VStr "B"; "email" := VStr "B@B";
                  "password" := VStr "YOU SHOULD NOT SEE IT!!!" ]}), s') /\
    st_users s' = domain.users /\
    st_console s' = [] /\
    st_steps s' <= 0 + 4 * 2.
Proof.
  apply (@return_types_script_completes decimal_engine initial_state).
  repeat constructor.
Defined.

(** *** #5 Type Guards *)

(** X14.  The second [if] of [isAdmin] never returns: it reads the same
    property as the first, so when it is reached its condition is false.
    On every argument other than [null] and [undefined] the guard answers
    whether [role] is truthy, from the first statement when it is and from
    the third when it is not. *)
Theorem isAdmin_second_branch_never_returns (u : value) :
  (forall v, (exec 1 TypeGuards.isAdmin_body u).2 <> Returned 2 v) /\
  (is_nullish u = false ->
   exec 1 TypeGuards.isAdmin_body u =
   if ToBoolean (default VUndefined (prop_lookup "role" u))
   then ([1], Returned 1 (VBool true))
   else ([1; 2; 3], Returned 3 (VBool false))).
Proof.
  unfold TypeGuards.isAdmin_body, as_. simpl. unfold get_prop.
  destruct (is_nullish u); simpl; [split; [discriminate | discriminate]|].
  destruct (ToBoolean (default VUndefined (prop_lookup "role" u))); simpl;
    split; done.
Qed.

Lemma isAdmin_second_branch_never_returns_witness :
  exec 1 TypeGuards.isAdmin_body (VObj {[ "role" := VStr "" ]}) =
  ([1; 2; 3], Returned 3 (VBool false)).
Proof.
  etrans.
  - apply (proj2 (isAdmin_second_branch_never_returns
                    (VObj {[ "role" := VStr "" ]}))).
    reflexivity.
  - reflexivity.
Defined.

(** X15.  [isAdmin] does not decide membership in [Admin].  On an [Admin]
    it answers [true] exactly when the role is not the empty string; on a
    [User] whose [role] is an integer other than zero, which is not an
    [Admin], it answers [true].  (The numbers of the model are the
    integers; [NaN], which is falsy, is not among them.)  When it answers
    [true] the argument does have a [role] property, which is what the
    statement it never reaches would test. *)
Theorem isAdmin_is_not_Admin_membership (u : value) (s : state) :
  (has_type true domain.Admin u = true ->
   exists role,
     prop_lookup "role" u = Some (VStr role) /\
     TypeGuards.isAdmin u s = (Ret (VBool (negb (String.eqb role ""))), s)) /\
  (forall n,
     has_type true domain.User u = true ->
     prop_lookup "role" u = Some (VNum n) -> n <> 0%Z ->
     has_type true domain.Admin u = false /\
     TypeGuards.isAdmin u s = (Ret (VBool true), s)) /\
  (TypeGuards.isAdmin u s = (Ret (VBool true), s) ->
   is_Some (prop_lookup "role" u)).
Proof.
  assert (Hrun : is_nullish u = false ->
            TypeGuards.isAdmin u s =
            (Ret (VBool (ToBoolean (default VUndefined (prop_lookup "role" u)))),
             s)).
  { intros Hnn. unfold TypeGuards.isAdmin, liftO, call,
      TypeGuards.isAdmin_body, as_. simpl. unfold get_prop. rewrite Hnn.
    simpl. by destruct (ToBoolean _). }
  split; [|split].
  - unfold domain.Admin.
    change (has_type true (TInter ?x ?y) u)
      with (has_type true x u && has_type true y u).
    intros [Hu Hrole]%andb_prop.
    apply User_strict_inv in Hu as (props & _ & _ & -> & _).
    rewrite has_type_obj in Hrole. simpl in Hrole.
    destruct (props !! "role") as [[| | | |role| |]|] eqn:Hr;
      try discriminate.
    exists role. split; [done|]. rewrite Hrun by done. simpl. by rewrite Hr.
  - intros n Hu Hrole Hn.
    apply User_strict_inv in Hu as (props & _ & _ & -> & _).
    split.
    + unfold domain.Admin.
      change (has_type true (TInter ?x ?y) ?v)
        with (has_type true x v && has_type true y v).
      rewrite (has_type_obj true [("role", TString)]). simpl in *.
      rewrite Hrole. simpl. by rewrite andb_false_r.
    + rewrite Hrun, Hrole by done. simpl.
      by destruct (Z.eqb_spec n 0).
  - destruct (is_nullish u) eqn:Hnn.
    + unfold TypeGuards.isAdmin, liftO, call, TypeGuards.isAdmin_body, as_.
      simpl. unfold get_prop. rewrite Hnn. discriminate.
    + rewrite Hrun by done.
      destruct (prop_lookup "role" u); [eauto | discriminate].
Qed.

Lemma isAdmin_is_not_Admin_membership_witness :
  has_type true domain.Admin
    (VObj {[ "name" := VStr "A"; "email" := VStr "A@A"; "role" := VNum 1 ]})
  = false /\
  TypeGuards.isAdmin
    (VObj {[ "name" := VStr "A"; "email" := VStr "A@A"; "role" := VNum 1 ]})
    initial_state
  = (Ret (VBool true), initial_state).
Proof.
  apply (proj1 (proj2 (isAdmin_is_not_Admin_membership
           (VObj {[ "name" := VStr "A"; "email" := VStr "A@A";
                    "role" := VNum 1 ]}) initial_state)) 1%Z);
    [reflexivity | reflexivity | discriminate].
Defined.

(** *** The console *)

Lemma quiet_ret {A} (a : A) : quiet (ret a).
Proof. by intros s. Qed.

Lemma quiet_liftO {A} (o : outcome A) : quiet (liftO o).
Proof. by intros s. Qed.

Lemma quiet_tick : quiet tick.
Proof. by intros s. Qed.

Lemma quiet_read_users : quiet read_users.
Proof. by intros s. Qed.

Lemma quiet_bind {A B} (m : M A) (f : A -> M B) :
  quiet m -> (forall a, quiet (f a)) -> quiet (bind m f).
Proof.
  intros Hm Hf s. unfold bind. specialize (Hm s).
  destruct (m s) as [[a|e] s']; simpl in *; [|done].
  by rewrite Hf.
Qed.

Lemma quiet_array_find p arr :
  (forall x, quiet (p x)) -> quiet (array_find p arr).
Proof.
  intros Hp. induction arr as [|x rest IH]; simpl; [apply quiet_ret|].
  apply quiet_bind; [apply quiet_tick|]. intros _.
  apply quiet_bind; [apply Hp|]. intros [|]; [apply quiet_ret | exact IH].
Qed.

Lemma quiet_array_reduce {B} (f : B -> value -> M B) init arr :
  (forall acc x, quiet (f acc x)) -> quiet (array_reduce f init arr).
Proof.
  intros Hf. revert init. induction arr as [|x rest IH]; intros init; simpl;
    [apply quiet_ret|].
  apply quiet_bind; [apply quiet_tick|]. intros _.
  apply quiet_bind; [apply Hf|]. intros acc. apply IH.
Qed.

Lemma quiet_name_callback `{Engine} name (u : value) :
  quiet (n <- liftO (get_prop "name" u) ;; liftO (loose_eq_str n name)).
Proof. apply quiet_bind; [apply quiet_liftO|]. intros. apply quiet_liftO. Qed.

Lemma quiet_findUser `{Engine} name : quiet (ReturnTypes.findUser name).
Proof.
  apply quiet_bind; [apply quiet_read_users|]. intros users.
  apply quiet_bind; [|intros; apply quiet_ret].
  apply quiet_array_find. intros. apply quiet_name_callback.
Qed.

Lemma quiet_n1 : quiet Casting.n1.
Proof.
  apply quiet_bind; [apply quiet_read_users|]. intros users.
  apply quiet_array_reduce. intros. apply quiet_ret.
Qed.

(** X16.  Only [warnUser] writes to the console.  The lookups, [getUser],
    the folds, [getNewUser] and [isAdmin] leave the console as it is on
    every input, whether they return or throw; [warnUser] on a [User] adds
    a line. *)
Theorem only_warnUser_writes_console `{Engine} :
  (forall yes, quiet (StrictNullCheck.getUser yes)) /\
  quiet StrictNullCheck.found /\
  quiet Casting.getUser /\
  (forall users, quiet (Casting.findUser users)) /\
  quiet Casting.n1 /\ quiet Casting.n2 /\ quiet Casting.n3 /\
  (forall name,
     quiet (ReturnTypes.findUser name) /\
     quiet (ReturnTypes.strictFindUser name) /\
     quiet (ReturnTypes.constFindUser name) /\
     quiet (ReturnTypes.overwriteFindUser name)) /\
  quiet ReturnTypes.getNewUser /\
  (forall u, quiet (TypeGuards.isAdmin u)) /\
  (forall user s,
     has_type true domain.User user = true ->
     length (st_console (StrictNullCheck.warnUser user s).2)
     = S (length (st_console s))).
Proof.
  repeat first [apply conj | intros ?].
  - apply quiet_ret.
  - apply quiet_array_find. intros. apply quiet_name_callback.
  - apply quiet_ret.
  - apply quiet_array_find. intros. apply quiet_name_callback.
  - apply quiet_n1.
  - apply quiet_n1.
  - apply quiet_n1.
  - apply quiet_findUser.
  - apply quiet_findUser.
  - apply quiet_findUser.
  - apply quiet_findUser.
  - apply quiet_ret.
  - apply quiet_liftO.
  - match goal with Hu : has_type _ _ _ = true |- _ =>
      apply User_strict_inv in Hu as (props & n & e & -> & Hn & He) end.
    unfold StrictNullCheck.warnUser, bind, liftO, get_prop. simpl.
    rewrite Hn, He. simpl. rewrite length_app. simpl. lia.
Qed.

Lemma only_warnUser_writes_console_witness :
  length (st_console
            (@StrictNullCheck.warnUser decimal_engine TypeGuards.admin
               initial_state).2)
  = 1.
Proof.
  apply (proj2 (proj2 (proj2 (proj2 (proj2 (proj2 (proj2 (proj2 (proj2 (proj2
           (@only_warnUser_writes_console decimal_engine))))))))))
           TypeGuards.admin initial_state).
  reflexivity.
Defined.

(** *** #2 Casting: [findUser] on an array *)

(** X17.  [findUser(users)] on an array of users returns the first user
    named ["A"], and [undefined] when there is none, in particular on the
    empty array; reading [name] of the result then throws a [TypeError]
    exactly in the second case. *)
Theorem Casting_findUser_undefined_iff_no_A `{Engine}
    (users : list value) (s : state) :
  Forall (fun u => has_type true domain.User u = true) users ->
  exists found s',
    Casting.findUser users s = (Ret found, s') /\
    found = default VUndefined (List.find (name_is "A") users) /\
    ((forall u, u ∈ users -> prop_lookup "name" u <> Some (VStr "A")) ->
     found = VUndefined /\ get_prop "name" found = Throw TypeError) /\
    ((exists u, u ∈ users /\ prop_lookup "name" u = Some (VStr "A")) ->
     found ∈ users /\ get_prop "name" found = Ret (VStr "A")).
Proof.
  intros Husers.
  destruct (array_find_by_name "A" users s Husers) as (k & _ & Hrun).
  eexists _, _. split; [exact Hrun|]. split; [done|]. split.
  - intros Hnone%find_name_is_None. by rewrite Hnone.
  - intros (u & Hin & Hname).
    destruct (List.find (name_is "A") users) as [found|] eqn:Hfind.
    + apply find_some in Hfind as [Hfound Hn]. simpl.
      split; [by apply list_elem_of_In|].
      apply name_is_object in Hn as (Hnn & _ & Hn).
      unfold get_prop. by rewrite Hnn, Hn.
    + exfalso. rewrite find_name_is_None in Hfind. by apply (Hfind u).
Qed.

Lemma Casting_findUser_undefined_iff_no_A_witness :
  exists found s',
    @Casting.findUser decimal_engine [] initial_state = (Ret found, s') /\
    found = VUndefined /\ get_prop "name" found = Throw TypeError.
Proof.
  destruct (@Casting_findUser_undefined_iff_no_A decimal_engine []
              initial_state (List.Forall_nil _))
    as (found & s' & Hrun & _ & Hnone & _).
  exists found, s'. split; [exact Hrun|]. apply Hnone.
  intros u Hin. by apply elem_of_nil in Hin.
Defined.

(** *** domain.ts: [User] and [Admin] *)

(** X18.  [User] is not included in [Admin], with or without strict null
    checks: every element of [users] is a [User] and is not an [Admin].
    The cast [u as Admin] is therefore not backed by the types.  An
    [IdentifiedUser], like an [Admin], is a [User]. *)
Theorem User_is_not_an_Admin (strict : bool) :
  ~ subtype strict domain.User domain.Admin /\
  (forall u, u ∈ domain.users ->
             has_type strict domain.User u = true /\
             has_type strict domain.Admin u = false) /\
  subtype strict Casting.IdentifiedUser domain.User.
Proof.
  assert (Helems : forall u, u ∈ domain.users ->
            has_type strict domain.User u = true /\
            has_type strict domain.Admin u = false).
  { intros u [->|[->|[]%elem_of_nil]%elem_of_cons]%elem_of_cons;
      by destruct strict. }
  split; [|split; [exact Helems|]].
  - intros Hsub.
    destruct (Helems (object_literal [("name", VStr "A"); ("email", VStr "A@A")]))
      as [Hu Ha]; [by left|].
    apply Hsub in Hu. congruence.
  - intros v. unfold Casting.IdentifiedUser.
    change (has_type strict (TInter ?x ?y) v)
      with ((negb strict && is_nullish v) ||
            (has_type strict x v && has_type strict y v)).
    intros [Hn | [Hu _]%andb_prop]%orb_prop; [|done].
    unfold domain.User. by rewrite has_type_obj, Hn.
Qed.
